(** * The Script command dispatcher of the Ambari agent

    A shallow embedding of
    [resource_management/libraries/script/script.py] (Python 2): the
    structured-output reporter [put_structured_out], the execution envelope
    [execute], and the package installation handler [install_packages].

    Python values that travel through the program are JSON documents; the
    process state (class attributes of [Script], the file system, the two
    logging channels and the record of calls made to collaborators) is
    threaded through a small state-and-exception monad. *)

From Stdlib Require Import ZArith List String Ascii Bool Lia DecimalString.
Import ListNotations.
Open Scope string_scope.
Set Warnings "-register-all".

(** ** JSON documents and Python dictionaries *)

Module Json.

(** What [json.load] / [json.loads] can return.  A float is kept by its
    literal; no arithmetic is ever done on it here. *)
Inductive value : Type :=
| Null
| Bool (b : bool)
| Int (z : Z)
| Float (literal : string)
| Str (s : string)
| Arr (items : list value)
| Obj (members : list (string * value)).

(** A [dict] with string keys.  The bindings are kept in insertion order;
    CPython 2 enumerates them in hash order instead, and nothing below
    depends on the order except the text of a serialized object. *)
Definition dict : Type := list (string * value).

Fixpoint dict_get (k : string) (d : dict) : option value :=
  match d with
  | [] => None
  | (k', v) :: rest => if String.eqb k k' then Some v else dict_get k rest
  end.

Definition has_key (k : string) (d : dict) : bool :=
  match dict_get k d with Some _ => true | None => false end.

(** [d[k] = v]: overwrite the binding of [k] in place, or add one. *)
Fixpoint dict_set (k : string) (v : value) (d : dict) : dict :=
  match d with
  | [] => [(k, v)]
  | (k', v') :: rest =>
      if String.eqb k k' then (k', v) :: rest
      else (k', v') :: dict_set k v rest
  end.

(** [d.update(u)]: every binding of [u] is stored into [d], in turn. *)
Definition dict_update (d u : dict) : dict :=
  fold_left (fun acc kv => dict_set (fst kv) (snd kv) acc) u d.

Definition keys (d : dict) : list string := map fst d.

End Json.
Import Json.

(** ** Exceptions and outcomes *)

(** The exception classes that occur in the script; [Fail] is
    [resource_management.core.exceptions.Fail], the others are built in.
    None of them is a subclass of another one of them. *)
Inductive exn : Type :=
| Fail
| KeyError
| ValueError
| TypeError
| IOError
| AttributeError.

Definition exn_eqb (a b : exn) : bool :=
  match a, b with
  | Fail, Fail | KeyError, KeyError | ValueError, ValueError
  | TypeError, TypeError | IOError, IOError
  | AttributeError, AttributeError => true
  | _, _ => false
  end.

(** How a call ends: it returns, it raises an exception an [except] clause
    may catch, or [sys.exit] was called ([SystemExit] is caught by none of
    the [except] clauses of the script). *)
Inductive outcome (A : Type) : Type :=
| Ok (a : A)
| Raise (e : exn)
| Exit (code : Z).
Arguments Ok {A} a.
Arguments Raise {A} e.
Arguments Exit {A} code.

(** The status the interpreter gives back to the caller of the process when
    the call of [execute] is the whole program: 0 on return, 1 after the
    traceback of an uncaught exception, and after [sys.exit(code)] the low
    eight bits of the code, which is all a process status holds. *)
Definition exit_status {A : Type} (o : outcome A) : Z :=
  match o with
  | Ok _ => 0
  | Raise _ => 1
  | Exit code => code mod 256
  end.

(** ** The process state *)

(** A path of the file system: a regular file with its text and access
    rights, or a place where nothing can be opened (a directory, or a name
    below a missing or protected directory).  A path that is not listed
    does not exist and can be created. *)
Inductive fnode : Type :=
| RegFile (content : string) (readable writable : bool)
| NoAccess.

Definition filesystem : Type := list (string * fnode).

Fixpoint fs_lookup (p : string) (fs : filesystem) : option fnode :=
  match fs with
  | [] => None
  | (p', n) :: rest => if String.eqb p p' then Some n else fs_lookup p rest
  end.

Fixpoint fs_store (p : string) (n : fnode) (fs : filesystem) : filesystem :=
  match fs with
  | [] => [(p, n)]
  | (p', n') :: rest =>
      if String.eqb p p' then (p', n) :: rest
      else (p', n') :: fs_store p n rest
  end.

(** [open(p, "r")] followed by reading the whole file; [None] is [IOError]. *)
Definition read_text (p : string) (fs : filesystem) : option string :=
  match fs_lookup p fs with
  | Some (RegFile text true _) => Some text
  | _ => None
  end.

Definition writable (p : string) (fs : filesystem) : bool :=
  match fs_lookup p fs with
  | Some (RegFile _ _ w) => w
  | Some NoAccess => false
  | None => true
  end.

(** [open(p, "w")] truncates or creates the file, the text is written and
    the file closed; [None] is [IOError].  Paths are the names of files to
    be; the failure that is modelled is the refusal of [open], which leaves
    the files as they are.  A failure of the device between a successful
    [open] and the end of the write, which would leave the file cut short,
    has no counterpart here. *)
Definition write_text (p text : string) (fs : filesystem)
  : option filesystem :=
  match fs_lookup p fs with
  | Some (RegFile _ r true) => Some (fs_store p (RegFile text r true) fs)
  | Some _ => None
  | None => Some (fs_store p (RegFile text true true) fs)
  end.

(** The execution context handed to a handler, bound to a directory. *)
Definition environment : Type := string.

(** Calls that leave the script, in the order they are made. *)
Inductive event : Type :=
| EvInstallRepos (config : dict)
| EvRemoveRepos (config : dict)
| EvPackage (name : value)
| EvEnvEnter (basedir : string)
| EvEnvExit (basedir : string)
| EvCall (attribute : string) (env : environment).

(** A line on one of the two logging channels. *)
Inductive log_line : Type :=
| LogError (message : string)
| LogException (message : string)
| Printed (text : string).

Record state : Type := mkState {
  fs : filesystem;
  config : option dict;        (* Script.config, unset until execute loads it *)
  stroutfile : option string;  (* self.stroutfile *)
  structuredOut : dict;        (* Script.structuredOut *)
  stdout : list log_line;
  stderr : list log_line;
  trace : list event
}.

Definition initial_state (files : filesystem) : state :=
  mkState files None None [] [] [] [].

(** ** The monad of script code *)

Definition M (A : Type) : Type := state -> outcome A * state.

Definition ret {A : Type} (a : A) : M A := fun st => (Ok a, st).

Definition bind {A B : Type} (m : M A) (k : A -> M B) : M B :=
  fun st =>
    match m st with
    | (Ok a, st') => k a st'
    | (Raise e, st') => (Raise e, st')
    | (Exit c, st') => (Exit c, st')
    end.

Declare Scope script_scope.
Delimit Scope script_scope with script.
Notation "x <- m ;; k" := (bind m (fun x => k))
  (at level 61, m at next level, right associativity) : script_scope.
Notation "m ;; k" := (bind m (fun _ => k))
  (at level 61, right associativity) : script_scope.
Open Scope script_scope.

Definition raise {A : Type} (e : exn) : M A := fun st => (Raise e, st).

(** [sys.exit(code)] *)
Definition sys_exit {A : Type} (code : Z) : M A := fun st => (Exit code, st).

(** [try: body  except cls: handler] *)
Definition try_except {A : Type} (cls : exn) (body handler : M A) : M A :=
  fun st =>
    match body st with
    | (Raise e, st') =>
        if exn_eqb e cls then handler st' else (Raise e, st')
    | r => r
    end.

(** [if c: body] *)
Definition when (c : bool) (body : M unit) : M unit :=
  if c then body else ret tt.

(** [for x in l: body] over an already evaluated sequence. *)
Fixpoint for_each {A : Type} (l : list A) (body : A -> M unit) : M unit :=
  match l with
  | [] => ret tt
  | x :: rest => body x ;; for_each rest body
  end.

Definition lift {A : Type} (o : outcome A) : M A := fun st => (o, st).

Definition emit (e : event) : M unit :=
  fun st => (Ok tt, mkState (fs st) (config st) (stroutfile st)
                      (structuredOut st) (stdout st) (stderr st)
                      (trace st ++ [e])).

(** The logger has two handlers: [chout] on stdout at level DEBUG and
    [cherr] on stderr at level ERROR; a record of level ERROR reaches both. *)
Definition log (l : log_line) : M unit :=
  fun st => (Ok tt, mkState (fs st) (config st) (stroutfile st)
                      (structuredOut st) (stdout st ++ [l]) (stderr st ++ [l])
                      (trace st)).

Definition logger_error (message : string) : M unit :=
  log (LogError message).

Definition logger_exception (message : string) : M unit :=
  log (LogException message).

(** ** Collaborators *)

(** The [json] module of the standard library, as far as the script uses
    it: [json.dumps] gives the text of a document, [json.loads] (and
    [json.load] on the text of a file) gives the document of a text or
    raises [ValueError], here [None]. *)
Class Codec : Type := {
  json_dumps : value -> string;
  json_loads : string -> option value
}.

(** The repository manager and the package resource are outside this file.
    Each call either returns ([None]) or raises; what it does may depend on
    the calls made before it. *)
Class World : Type := {
  repo_install_repos : list event -> dict -> option exn;
  repo_remove_repos : list event -> dict -> option exn;
  package_resource : list event -> value -> option exn
}.

(** A collaborator call: it is recorded, then it returns or raises. *)
Definition call_out (e : event) (oracle : list event -> option exn)
  : M unit :=
  fun st =>
    match emit e st with
    | (_, st') =>
        match oracle (trace st) with
        | None => (Ok tt, st')
        | Some x => (Raise x, st')
        end
    end.

(** [v[k]] with a string [k], for the values [json.loads] returns: a dict
    gives the value bound to the key or raises [KeyError]; lists and
    strings take integer indices only, and nothing else can be indexed. *)
Definition getitem (v : value) (k : string) : outcome value :=
  match v with
  | Obj d =>
      match dict_get k d with
      | Some x => Ok x
      | None => Raise KeyError
      end
  | _ => Raise TypeError
  end.

(** Modelled from the spec: [config_dictionary.py] is not among the sources.
    The Configuration wraps a JSON object so that nested objects stay
    navigable by key at any depth, and a lookup of an absent key raises a
    distinguishable missing-key condition, [KeyError]; a value that is not
    an object is the plain Python value. *)
Definition ConfigDictionary_getitem (v : value) (k : string)
  : outcome value :=
  getitem v k.

(** Modelled from the spec: the constructor [ConfigDictionary(document)]
    wraps the JSON object read from [config_path]; a document that is not
    an object cannot be wrapped. *)
Definition ConfigDictionary (document : value) : outcome dict :=
  match document with
  | Obj d => Ok d
  | _ => Raise TypeError
  end.

(** [for x in v]: the items of a list, the keys of a dict, the characters
    of a string; nothing else that [json.loads] returns is iterable. *)
Definition py_iter (v : value) : outcome (list value) :=
  match v with
  | Arr items => Ok items
  | Obj d => Ok (map (fun k => Str k) (keys d))
  | Str s => Ok (map (fun c => Str (String c EmptyString))
                     (list_ascii_of_string s))
  | _ => Raise TypeError
  end.

Section Script.

Context {codec : Codec} {world : World}.

Definition RepoInstaller_install_repos (config : dict) : M unit :=
  call_out (EvInstallRepos config)
           (fun history => repo_install_repos history config).

Definition RepoInstaller_remove_repos (config : dict) : M unit :=
  call_out (EvRemoveRepos config)
           (fun history => repo_remove_repos history config).

Definition Package (name : value) : M unit :=
  call_out (EvPackage name)
           (fun history => package_resource history name).

(** [Script.structuredOut.update(sout)] *)
Definition structuredOut_update (sout : dict) : M unit :=
  fun st => (Ok tt, mkState (fs st) (config st) (stroutfile st)
                      (dict_update (structuredOut st) sout)
                      (stdout st) (stderr st) (trace st)).

Definition get_structuredOut : M dict :=
  fun st => (Ok (structuredOut st), st).

(** Reading [self.stroutfile]; the attribute exists once [execute] has
    stored the fourth argument. *)
Definition get_stroutfile : M string :=
  fun st =>
    match stroutfile st with
    | Some p => (Ok p, st)
    | None => (Raise AttributeError, st)
    end.

Definition set_stroutfile (p : string) : M unit :=
  fun st => (Ok tt, mkState (fs st) (config st) (Some p)
                      (structuredOut st) (stdout st) (stderr st) (trace st)).

Definition set_config (c : dict) : M unit :=
  fun st => (Ok tt, mkState (fs st) (Some c) (stroutfile st)
                      (structuredOut st) (stdout st) (stderr st) (trace st)).

(** [with open(p, "r") as f: ... f.read()] *)
Definition open_read (p : string) : M string :=
  fun st =>
    match read_text p (fs st) with
    | Some text => (Ok text, st)
    | None => (Raise IOError, st)
    end.

(** [with open(p, "w") as fp: fp.write(text)] *)
Definition open_write (p text : string) : M unit :=
  fun st =>
    match write_text p text (fs st) with
    | Some fs' => (Ok tt, mkState fs' (config st) (stroutfile st)
                            (structuredOut st) (stdout st) (stderr st)
                            (trace st))
    | None => (Raise IOError, st)
    end.

Definition loads (text : string) : M value :=
  match json_loads text with
  | Some v => ret v
  | None => raise ValueError
  end.

(** [put_structured_out], lines 43-50.  The text that reaches the file is
    [json.dump] of [structuredOut], which is already the text produced by
    [json.dumps]: the document written is a JSON string. *)
Definition put_structured_out (sout : dict) : M unit :=
  structuredOut_update sout ;;
  try_except IOError
    (acc <- get_structuredOut ;;
     let structuredOut := json_dumps (Obj acc) in
     path <- get_stroutfile ;;
     open_write path (json_dumps (Str structuredOut)))
    (path <- get_stroutfile ;;
     structuredOut_update [("errMsg", Str ("Unable to write to " ++ path))]).

(** [get_config], lines 98-105: the class attribute [Script.config]. *)
Definition get_config : M dict :=
  fun st =>
    match config st with
    | Some c => (Ok c, st)
    | None => (Raise AttributeError, st)
    end.

(** [install_packages], lines 118-137. *)
Definition install_packages (env : environment) : M unit :=
  config <- get_config ;;
  RepoInstaller_install_repos config ;;
  try_except KeyError
    (hostLevelParams <-
       lift (ConfigDictionary_getitem (Obj config) "hostLevelParams") ;;
     package_list_str <-
       lift (ConfigDictionary_getitem hostLevelParams "package_list") ;;
     match package_list_str with
     | Str s =>
         when (0 <? String.length s)%nat
           (package_list <- loads s ;;
            packages <- lift (py_iter package_list) ;;
            for_each packages (fun package =>
              name <- lift (getitem package "name") ;;
              Package name))
     | _ => ret tt
     end)
    (ret tt) ;;
  RepoInstaller_remove_repos config.

(** [install], lines 108-115. *)
Definition install (env : environment) : M unit :=
  install_packages env.

(** [fail_with_error], lines 141-147. *)
Definition fail_with_error (message : string) : M unit :=
  fun st =>
    (Exit 1, mkState (fs st) (config st) (stroutfile st) (structuredOut st)
               (stdout st ++ [Printed ("Error: " ++ message)])
               (stderr st ++ [Printed ("Error: " ++ message)])
               (trace st)).

(** *** Dispatch *)

(** An attribute of the script instance: a method taking the execution
    context, or anything that cannot be called. *)
Inductive attribute : Type :=
| Method (body : environment -> M unit)
| Data.

(** What a concrete command script, a subclass of [Script], defines. *)
Definition script_class : Type := list (string * attribute).

(** A method of [Script] whose signature does not accept the single
    argument [env] ([execute], [get_config]), or whose body cannot work on
    an execution context ([put_structured_out], [fail_with_error]). *)
Definition not_a_handler (env : environment) : M unit := raise TypeError.

(** The attributes every instance has when [execute] reaches line 86: the
    methods of the class, its two class attributes ([config] has been
    assigned on line 81), the instance attribute [stroutfile] assigned on
    line 77, and the two attributes of any old-style class. *)
Definition Script_attributes : list (string * attribute) :=
  [ ("__doc__", Data);
    ("__module__", Data);
    ("config", Data);
    ("execute", Method not_a_handler);
    ("fail_with_error", Method not_a_handler);
    ("get_config", Method not_a_handler);
    ("install", Method install);
    ("install_packages", Method install_packages);
    ("put_structured_out", Method not_a_handler);
    ("stroutfile", Data);
    ("structuredOut", Data) ].

(** [dir(self)] *)
Definition dir (self : script_class) : list string :=
  map fst (self ++ Script_attributes).

Fixpoint find_attribute (name : string) (l : list (string * attribute))
  : option attribute :=
  match l with
  | [] => None
  | (n, a) :: rest =>
      if String.eqb name n then Some a else find_attribute name rest
  end.

(** What the instance itself holds when [execute] reaches line 90: the
    path assigned to [self.stroutfile] on line 77. *)
Definition instance_attributes : list (string * attribute) :=
  [("stroutfile", Data)].

(** [getattr(self, name)]: the instance is searched first, then the class
    of the script, which shadows [Script]. *)
Definition getattr (self : script_class) (name : string) : M attribute :=
  match find_attribute name
          (instance_attributes ++ self ++ Script_attributes) with
  | Some a => ret a
  | None => raise AttributeError
  end.

(** [method(env)] *)
Definition call (name : string) (method : attribute) (env : environment)
  : M unit :=
  match method with
  | Method body => emit (EvCall name env) ;; body env
  | Data => raise TypeError
  end.

(** Modelled from the spec: [environment.py] is not among the sources.
    [with Environment(basedir) as env: body] acquires a context bound to
    the working directory, runs the body, and releases the context on
    every way out of the body, whose outcome it passes on. *)
Definition with_Environment (basedir : string)
    (body : environment -> M unit) : M unit :=
  fun st =>
    match emit (EvEnvEnter basedir) st with
    | (_, st1) =>
        match body basedir st1 with
        | (r, st2) => (r, snd (emit (EvEnvExit basedir) st2))
        end
    end.

Definition lower_ascii (c : ascii) : ascii :=
  let n := nat_of_ascii c in
  if ((65 <=? n) && (n <=? 90))%nat then ascii_of_nat (n + 32) else c.

(** [str.lower] *)
Fixpoint lower (s : string) : string :=
  match s with
  | EmptyString => EmptyString
  | String c rest => String (lower_ascii c) (lower rest)
  end.

(** [execute], lines 52-96; [argv] is [sys.argv].  Attaching the two
    handlers to the logger (lines 58-68) is what [log] stands for. *)
Definition execute (self : script_class) (argv : list string) : M unit :=
  when (List.length argv <? 5)%nat
    (logger_error "Script expects at least 4 arguments" ;;
     sys_exit 1) ;;
  let command_name := lower (nth 1 argv "") in
  let command_data_file := nth 2 argv "" in
  let basedir := nth 3 argv "" in
  set_stroutfile (nth 4 argv "") ;;
  try_except IOError
    (text <- open_read command_data_file ;;
     document <- loads text ;;
     c <- lift (ConfigDictionary document) ;;
     set_config c)
    (logger_exception "Can not read json file with command parameters: " ;;
     sys_exit 1) ;;
  let self_methods := dir self in
  when (negb (existsb (String.eqb command_name) self_methods))
    (logger_error ("Script " ++ nth 0 argv "" ++ " has not method '"
                     ++ command_name ++ "'") ;;
     sys_exit 1) ;;
  method <- getattr self command_name ;;
  try_except Fail
    (with_Environment basedir (call command_name method))
    (logger_exception ("Got exception while executing method '"
                         ++ command_name ++ "':") ;;
     sys_exit 1).

End Script.

(** ** A reference codec

    The text format of Python's [json] module with its default settings
    ([ensure_ascii], separators [", "] and [": "], strict strings), for
    documents whose strings hold code points below 256.  It instantiates
    [Codec] wherever a statement is evaluated on a concrete input. *)

Module PyJson.

Definition dquote : ascii :=
  Ascii false true false false false true false false.

Definition backslash : ascii :=
  Ascii false false true true true false true false.

Definition chr (c : ascii) : string := String c EmptyString.

Definition hex_digit (n : nat) : ascii :=
  nth n (list_ascii_of_string "0123456789abcdef") "0"%char.

(** One character of a string, as [ESCAPE_ASCII] and [ESCAPE_DCT] of
    [json.encoder] write it. *)
Definition escape (c : ascii) : string :=
  let n := nat_of_ascii c in
  if Ascii.eqb c dquote then String backslash (chr dquote)
  else if Ascii.eqb c backslash then String backslash (chr backslash)
  else if (n =? 8)%nat then String backslash "b"
  else if (n =? 9)%nat then String backslash "t"
  else if (n =? 10)%nat then String backslash "n"
  else if (n =? 12)%nat then String backslash "f"
  else if (n =? 13)%nat then String backslash "r"
  else if ((n <? 32) || (126 <? n))%nat then
    String backslash
      ("u00" ++ chr (hex_digit (n / 16)) ++ chr (hex_digit (n mod 16)))
  else chr c.

Fixpoint escape_all (s : string) : string :=
  match s with
  | EmptyString => EmptyString
  | String c rest => escape c ++ escape_all rest
  end.

Definition quote (s : string) : string :=
  chr dquote ++ escape_all s ++ chr dquote.

Definition decimal (z : Z) : string :=
  NilZero.string_of_int (Z.to_int z).

(** [json.dumps] *)
Fixpoint dumps (v : value) : string :=
  match v with
  | Null => "null"
  | Bool true => "true"
  | Bool false => "false"
  | Int z => decimal z
  | Float literal => literal
  | Str s => quote s
  | Arr items =>
      "[" ++ (fix each (l : list value) : string :=
                match l with
                | [] => ""
                | x :: rest =>
                    dumps x ++
                    match rest with [] => "" | _ => ", " ++ each rest end
                end) items ++ "]"
  | Obj members =>
      "{" ++ (fix each (l : list (string * value)) : string :=
                match l with
                | [] => ""
                | (k, x) :: rest =>
                    quote k ++ ": " ++ dumps x ++
                    match rest with [] => "" | _ => ", " ++ each rest end
                end) members ++ "}"
  end.

Definition is_ws (c : ascii) : bool :=
  let n := nat_of_ascii c in
  ((n =? 32) || (n =? 9) || (n =? 10) || (n =? 13))%nat.

Fixpoint skip_ws (l : list ascii) : list ascii :=
  match l with
  | c :: rest => if is_ws c then skip_ws rest else l
  | [] => []
  end.

Definition is_digit (c : ascii) : bool :=
  let n := nat_of_ascii c in ((48 <=? n) && (n <=? 57))%nat.

Fixpoint take_digits (l : list ascii) : list ascii * list ascii :=
  match l with
  | c :: rest =>
      if is_digit c then
        let (ds, tl) := take_digits rest in (c :: ds, tl)
      else ([], l)
  | [] => ([], [])
  end.

Definition hex_value (c : ascii) : option nat :=
  let n := nat_of_ascii c in
  if ((48 <=? n) && (n <=? 57))%nat then Some (n - 48)%nat
  else if ((97 <=? n) && (n <=? 102))%nat then Some (n - 87)%nat
  else if ((65 <=? n) && (n <=? 70))%nat then Some (n - 55)%nat
  else None.

Definition unescape (c : ascii) : option ascii :=
  if Ascii.eqb c dquote then Some dquote
  else if Ascii.eqb c backslash then Some backslash
  else if Ascii.eqb c "/" then Some "/"%char
  else if Ascii.eqb c "b" then Some (ascii_of_nat 8)
  else if Ascii.eqb c "f" then Some (ascii_of_nat 12)
  else if Ascii.eqb c "n" then Some (ascii_of_nat 10)
  else if Ascii.eqb c "r" then Some (ascii_of_nat 13)
  else if Ascii.eqb c "t" then Some (ascii_of_nat 9)
  else None.

(** The characters after an opening quote, up to the closing one. *)
Fixpoint scan_string (l : list ascii) : option (string * list ascii) :=
  match l with
  | [] => None
  | c :: rest =>
      if Ascii.eqb c dquote then Some (EmptyString, rest)
      else if Ascii.eqb c backslash then
        match rest with
        | "u"%char :: h1 :: h2 :: h3 :: h4 :: rest' =>
            match hex_value h1, hex_value h2, hex_value h3, hex_value h4 with
            | Some 0%nat, Some 0%nat, Some a, Some b =>
                match scan_string rest' with
                | Some (s, tl) =>
                    Some (String (ascii_of_nat (16 * a + b)) s, tl)
                | None => None
                end
            | _, _, _, _ => None
            end
        | e :: rest' =>
            match unescape e, scan_string rest' with
            | Some x, Some (s, tl) => Some (String x s, tl)
            | _, _ => None
            end
        | [] => None
        end
      else if (nat_of_ascii c <? 32)%nat then None
      else
        match scan_string rest with
        | Some (s, tl) => Some (String c s, tl)
        | None => None
        end
  end.

Fixpoint strip_prefix (p l : list ascii) : option (list ascii) :=
  match p, l with
  | [], _ => Some l
  | a :: p', b :: l' => if Ascii.eqb a b then strip_prefix p' l' else None
  | _ :: _, [] => None
  end.

Definition literal_of (l : list ascii) : string := string_of_list_ascii l.

Definition digits_value (ds : list ascii) : Z :=
  fold_left (fun acc c => (10 * acc + Z.of_nat (nat_of_ascii c - 48))%Z)
            ds 0%Z.

(** [NUMBER_RE]: an integer part, then an optional fraction and an
    optional exponent, either of which makes the number a float. *)
Definition scan_number (l : list ascii) : option (value * list ascii) :=
  let (neg, l1) :=
    match l with
    | "-"%char :: rest => (true, rest)
    | _ => (false, l)
    end in
  let int_part :=
    match l1 with
    | "0"%char :: rest => Some (["0"%char], rest)
    | c :: _ =>
        if is_digit c then Some (take_digits l1) else None
    | [] => None
    end in
  match int_part with
  | None => None
  | Some (ds, l2) =>
      let (frac, l3) :=
        match l2 with
        | "."%char :: c :: _ =>
            if is_digit c then
              let (fs, tl) := take_digits (tl l2) in ("."%char :: fs, tl)
            else ([], l2)
        | _ => ([], l2)
        end in
      let exponent (mark : ascii) (tail : list ascii) :=
        match tail with
        | s :: c :: _ =>
            if (Ascii.eqb s "+" || Ascii.eqb s "-") && is_digit c then
              let (es, tl) := take_digits (tl tail) in (mark :: s :: es, tl)
            else if is_digit s then
              let (es, tl) := take_digits tail in (mark :: es, tl)
            else ([], l3)
        | [s] => if is_digit s then ([mark; s], []) else ([], l3)
        | [] => ([], l3)
        end in
      let (ex, l4) :=
        match l3 with
        | "e"%char :: tail => exponent "e"%char tail
        | "E"%char :: tail => exponent "E"%char tail
        | _ => ([], l3)
        end in
      let sign := if neg then ["-"%char] else [] in
      match frac, ex with
      | [], [] =>
          Some (Int (if neg then - digits_value ds else digits_value ds), l4)
      | _, _ => Some (Float (literal_of (sign ++ ds ++ frac ++ ex)), l4)
      end
  end.

Definition scan_constant (l : list ascii) : option (value * list ascii) :=
  let try (word : string) (v : value) :=
    match strip_prefix (list_ascii_of_string word) l with
    | Some tl => Some (v, tl)
    | None => None
    end in
  match l with
  | "n"%char :: _ => try "null" Null
  | "t"%char :: _ => try "true" (Bool true)
  | "f"%char :: _ => try "false" (Bool false)
  | _ =>
      match scan_number l with
      | Some r => Some r
      | None =>
          match try "NaN" (Float "NaN") with
          | Some r => Some r
          | None =>
              match try "Infinity" (Float "Infinity") with
              | Some r => Some r
              | None => try "-Infinity" (Float "-Infinity")
              end
          end
      end
  end.

(** [scan_once], [JSONArray] and [JSONObject] of [json.decoder]; the fuel
    bounds the depth of the calls. *)
Fixpoint scan_once (fuel : nat) (l : list ascii)
  : option (value * list ascii) :=
  match fuel with
  | O => None
  | S fuel' =>
      match l with
      | [] => None
      | c :: rest =>
          if Ascii.eqb c dquote then
            match scan_string rest with
            | Some (s, tl) => Some (Str s, tl)
            | None => None
            end
          else if Ascii.eqb c "{" then
            match skip_ws rest with
            | "}"%char :: tl => Some (Obj [], tl)
            | after =>
                match scan_members fuel' after [] with
                | Some (d, tl) => Some (Obj d, tl)
                | None => None
                end
            end
          else if Ascii.eqb c "[" then
            match skip_ws rest with
            | "]"%char :: tl => Some (Arr [], tl)
            | after =>
                match scan_items fuel' after with
                | Some (items, tl) => Some (Arr items, tl)
                | None => None
                end
            end
          else scan_constant l
      end
  end

with scan_items (fuel : nat) (l : list ascii)
  : option (list value * list ascii) :=
  match fuel with
  | O => None
  | S fuel' =>
      match scan_once fuel' l with
      | None => None
      | Some (v, tl) =>
          match skip_ws tl with
          | "]"%char :: tl' => Some ([v], tl')
          | ","%char :: tl' =>
              match scan_items fuel' (skip_ws tl') with
              | Some (vs, tl'') => Some (v :: vs, tl'')
              | None => None
              end
          | _ => None
          end
      end
  end

with scan_members (fuel : nat) (l : list ascii) (acc : dict)
  : option (dict * list ascii) :=
  match fuel with
  | O => None
  | S fuel' =>
      match l with
      | c :: rest =>
          if Ascii.eqb c dquote then
            match scan_string rest with
            | None => None
            | Some (k, tl) =>
                match skip_ws tl with
                | ":"%char :: tl' =>
                    match scan_once fuel' (skip_ws tl') with
                    | None => None
                    | Some (v, tl'') =>
                        let acc' := dict_set k v acc in
                        match skip_ws tl'' with
                        | "}"%char :: tl3 => Some (acc', tl3)
                        | ","%char :: tl3 =>
                            scan_members fuel' (skip_ws tl3) acc'
                        | _ => None
                        end
                    end
                | _ => None
                end
            end
          else None
      | [] => None
      end
  end.

(** [json.loads] *)
Definition loads (text : string) : option value :=
  let l := list_ascii_of_string text in
  match scan_once (2 * List.length l + 2) (skip_ws l) with
  | Some (v, tl) =>
      match skip_ws tl with
      | [] => Some v
      | _ :: _ => None
      end
  | None => None
  end.

#[export] Instance codec : Codec :=
  {| json_dumps := dumps; json_loads := loads |}.

End PyJson.

(** A world in which no collaborator ever fails. *)
Definition quiet_world : World :=
  {| repo_install_repos := fun _ _ => None;
     repo_remove_repos := fun _ _ => None;
     package_resource := fun _ _ => None |}.

(** A world whose repository registration raises [e]. *)
Definition broken_repos (e : exn) : World :=
  {| repo_install_repos := fun _ _ => Some e;
     repo_remove_repos := fun _ _ => None;
     package_resource := fun _ _ => None |}.

(** ** Observations on states *)

(** The state after further collaborator calls have been recorded. *)
Definition add_events (evs : list event) (st : state) : state :=
  mkState (fs st) (config st) (stroutfile st) (structuredOut st)
          (stdout st) (stderr st) (trace st ++ evs).

(** The state after a line has gone to both logging channels. *)
Definition add_log (l : log_line) (st : state) : state :=
  mkState (fs st) (config st) (stroutfile st) (structuredOut st)
          (stdout st ++ [l]) (stderr st ++ [l]) (trace st).

(** The state once [execute] has stored the output path (line 77) and the
    configuration (line 81). *)
Definition loaded_state (out : string) (cfg : dict) (st : state) : state :=
  mkState (fs st) (Some cfg) (Some out) (structuredOut st)
          (stdout st) (stderr st) (trace st).

(** The state once [execute] has stored the output path only. *)
Definition parsed_state (out : string) (st : state) : state :=
  mkState (fs st) (config st) (Some out) (structuredOut st)
          (stdout st) (stderr st) (trace st).

Definition outcome_of (o : option exn) : outcome unit :=
  match o with
  | None => Ok tt
  | Some e => Raise e
  end.

(** The text stored in a regular file, whatever its access rights. *)
Definition file_content (p : string) (files : filesystem) : option string :=
  match fs_lookup p files with
  | Some (RegFile text _ _) => Some text
  | _ => None
  end.

(** The text the reporter sends to the file for a mapping. *)
Definition persisted_text {codec : Codec} (acc : dict) : string :=
  json_dumps (Str (json_dumps (Obj acc))).

(** The lookup [config['hostLevelParams']['package_list']] of line 128. *)
Definition package_list_lookup (cfg : dict) : outcome value :=
  match ConfigDictionary_getitem (Obj cfg) "hostLevelParams" with
  | Ok hostLevelParams =>
      ConfigDictionary_getitem hostLevelParams "package_list"
  | Raise e => Raise e
  | Exit code => Exit code
  end.

(** The message [put_structured_out] records when the write fails. *)
Definition errMsg_entry (path : string) : dict :=
  [("errMsg", Str ("Unable to write to " ++ path))].

(** ** Concrete inputs *)

Definition out_path : string := "/var/lib/ambari-agent/data/structured-out.json".
Definition config_path : string := "/var/lib/ambari-agent/data/command-7.json".
Definition work_dir : string := "/var/lib/ambari-agent/cache".

(** A process that has stored its output path and reported nothing yet. *)
Definition reporting_state (files : filesystem) : state :=
  mkState files None (Some out_path) [] [] [] [].

Definition report_a1 : dict := [("a", Int 1)].
Definition report_b2 : dict := [("b", Int 2)].
Definition report_a3 : dict := [("a", Int 3)].

(** The text [{"a": 1, "b": 2}] of the mapping, and the text of that text
    as a JSON string, in which every quote is escaped. *)
Definition object_text_ab : string :=
  "{" ++ PyJson.quote "a" ++ ": 1, " ++ PyJson.quote "b" ++ ": 2}".
Definition string_text_ab : string := PyJson.quote object_text_ab.

Definition read_only_out : filesystem :=
  [(out_path, RegFile "" true false)].

(** The text [[{"name":"foo"},{"name":"bar"}]]. *)
Definition foo_bar_text : string :=
  "[{" ++ PyJson.quote "name" ++ ":" ++ PyJson.quote "foo" ++ "},{"
       ++ PyJson.quote "name" ++ ":" ++ PyJson.quote "bar" ++ "}]".

(** The text [[{"name":"foo"}], whose closing bracket is missing. *)
Definition malformed_text : string :=
  "[{" ++ PyJson.quote "name" ++ ":" ++ PyJson.quote "foo" ++ "}".

(** The text [[{"name":"foo"},{"version":"1"},{"name":"bar"}]]. *)
Definition nameless_text : string :=
  "[{" ++ PyJson.quote "name" ++ ":" ++ PyJson.quote "foo" ++ "},{"
       ++ PyJson.quote "version" ++ ":" ++ PyJson.quote "1" ++ "},{"
       ++ PyJson.quote "name" ++ ":" ++ PyJson.quote "bar" ++ "}]".

Definition config_with_packages (text : string) : dict :=
  [("hostLevelParams", Obj [("package_list", Str text)])].

(** A process whose configuration has been loaded. *)
Definition configured_state (c : dict) : state :=
  mkState [] (Some c) (Some out_path) [] [] [] [].

(** A command file holding the empty JSON object. *)
Definition empty_config_files : filesystem :=
  [(config_path, RegFile "{}" true false)].

Definition argv_for (command : string) : list string :=
  ["script.py"; command; config_path; work_dir; out_path].

(** An invocation with two arguments after the program name. *)
Definition argv_short : list string :=
  ["script.py"; "install"; config_path].

(** A command file whose text is not JSON. *)
Definition broken_json_files : filesystem :=
  [(config_path, RegFile "{" true false)].

(** ** Further inputs *)

(** A world whose package resource raises [e] for the package [bar] and
    installs every other one. *)
Definition bar_fails (e : exn) : World :=
  {| repo_install_repos := fun _ _ => None;
     repo_remove_repos := fun _ _ => None;
     package_resource :=
       fun _ name =>
         match name with
         | Str s => if String.eqb s "bar" then Some e else None
         | _ => None
         end |}.

(** A piece of script code that does nothing but install packages: in
    every state it ends without [sys.exit], having added installation
    calls to the record and changed nothing else. *)
Definition only_installs (m : M unit) : Prop :=
  forall st, exists names r,
    m st = (r, add_events (map EvPackage names) st) /\
    forall code, r <> Exit code.

(** The text [["foo"]]: a list of bare names instead of descriptors. *)
Definition bare_names_text : string := "[" ++ PyJson.quote "foo" ++ "]".

(** A command file holding [{"hostLevelParams": {"package_list": 7}}]. *)
Definition numeric_list_config : dict :=
  [("hostLevelParams", Obj [("package_list", Int 7)])].

(** A command file holding the configuration whose package list is the
    text of [foo] and [bar]. *)
Definition packages_config_files : filesystem :=
  [(config_path,
    RegFile (PyJson.dumps (Obj (config_with_packages foo_bar_text)))
            true false)].

(** Whether the script gives a meaning of its own to a name.  The methods
    of [Script] call each other through [self]; for a script that defines
    none of the names such a call goes through, the call is the one
    written in [Script]. *)
Definition defines (self : script_class) (name : string) : bool :=
  existsb (String.eqb name) (map fst self).

(** A script whose [start] command gives up with a message. *)
Definition giving_up_script : script_class :=
  [("start", Method (fun _ => fail_with_error "no such service"))].

(** A script whose [status] command reports one field. *)
Definition status_script : script_class :=
  [("status",
    Method (fun _ => put_structured_out (codec := PyJson.codec)
                       [("state", Str "up")]))].

(** A script whose only method has a capital in its name. *)
Definition capital_script : script_class :=
  [("Start",
    Method (fun _ => put_structured_out (codec := PyJson.codec)
                       [("state", Str "up")]))].

(** * Properties *)

(** ** Dictionaries *)

Lemma dict_get_set_same (k : string) (v : value) (d : dict) :
  dict_get k (dict_set k v d) = Some v.
Proof.
  induction d as [|[k' v'] rest IH]; simpl.
  - now rewrite String.eqb_refl.
  - destruct (String.eqb k k') eqn:E; simpl; rewrite E; auto.
Qed.

Lemma dict_get_set_other (k k' : string) (v : value) (d : dict) :
  k <> k' -> dict_get k (dict_set k' v d) = dict_get k d.
Proof.
  intros Hne. induction d as [|[k0 v0] rest IH]; simpl.
  - destruct (String.eqb_spec k k'); congruence.
  - destruct (String.eqb_spec k' k0) as [->|Hk0]; simpl.
    + destruct (String.eqb_spec k k0); congruence.
    + destruct (String.eqb_spec k k0); auto.
Qed.

Lemma dict_get_app (k : string) (a b : dict) :
  dict_get k (a ++ b)%list =
  match dict_get k a with Some v => Some v | None => dict_get k b end.
Proof.
  induction a as [|[k' v'] rest IH]; simpl; auto.
  destruct (String.eqb k k'); auto.
Qed.

(** [update] is last-write-wins: a key takes the value of its last binding
    in the argument, and keeps its old value when the argument has none. *)
Lemma dict_get_update (k : string) (u d : dict) :
  dict_get k (dict_update d u) =
  match dict_get k (rev u) with
  | Some v => Some v
  | None => dict_get k d
  end.
Proof.
  unfold dict_update. revert d.
  induction u as [|[k' v'] rest IH]; intros d; simpl; auto.
  rewrite IH, dict_get_app. destruct (dict_get k (rev rest)); auto.
  simpl. destruct (String.eqb_spec k k') as [->|Hne].
  - apply dict_get_set_same.
  - now apply dict_get_set_other.
Qed.

(** [update] never removes a key. *)
Lemma has_key_update_old (k : string) (u d : dict) :
  has_key k d = true -> has_key k (dict_update d u) = true.
Proof.
  unfold has_key. rewrite dict_get_update.
  destruct (dict_get k (rev u)); auto.
Qed.

Lemma dict_get_rev_none (k : string) (u : dict) :
  dict_get k u = None -> dict_get k (rev u) = None.
Proof.
  induction u as [|[k' v'] rest IH]; simpl; auto.
  destruct (String.eqb k k') eqn:E; try discriminate.
  intros H. rewrite dict_get_app, (IH H). simpl. now rewrite E.
Qed.

(** A key the argument does not bind keeps its value. *)
Lemma dict_get_update_absent (k : string) (u d : dict) :
  dict_get k u = None -> dict_get k (dict_update d u) = dict_get k d.
Proof.
  intros H. rewrite dict_get_update. now rewrite (dict_get_rev_none _ _ H).
Qed.

(** ** Files *)

Lemma fs_lookup_store_same (p : string) (n : fnode) (files : filesystem) :
  fs_lookup p (fs_store p n files) = Some n.
Proof.
  induction files as [|[p' n'] rest IH]; simpl.
  - now rewrite String.eqb_refl.
  - destruct (String.eqb p p') eqn:E; simpl; rewrite E; auto.
Qed.

Lemma fs_lookup_store_other (p q : string) (n : fnode) (files : filesystem) :
  p <> q -> fs_lookup p (fs_store q n files) = fs_lookup p files.
Proof.
  intros Hne. induction files as [|[p0 n0] rest IH]; simpl.
  - destruct (String.eqb_spec p q); congruence.
  - destruct (String.eqb_spec q p0) as [->|Hq]; simpl.
    + destruct (String.eqb_spec p p0); congruence.
    + destruct (String.eqb_spec p p0); auto.
Qed.

(** A successful write replaces the whole text of the file. *)
Lemma write_text_content (p text : string) (files files' : filesystem) :
  write_text p text files = Some files' ->
  file_content p files' = Some text.
Proof.
  unfold write_text, file_content.
  destruct (fs_lookup p files) as [[old r [|]|]|] eqn:E; try discriminate;
    intros H; inversion H; subst; now rewrite fs_lookup_store_same.
Qed.

(** A write touches no other file. *)
Lemma write_text_elsewhere (p q text : string) (files files' : filesystem) :
  write_text p text files = Some files' -> q <> p ->
  fs_lookup q files' = fs_lookup q files.
Proof.
  unfold write_text.
  destruct (fs_lookup p files) as [[old r [|]|]|] eqn:E; try discriminate;
    intros H Hne; inversion H; subst; now apply fs_lookup_store_other.
Qed.

Lemma write_text_writable (p text : string) (files : filesystem) :
  writable p files = true -> exists files', write_text p text files = Some files'.
Proof.
  unfold writable, write_text.
  destruct (fs_lookup p files) as [[old r [|]|]|]; try discriminate; eauto.
Qed.

Lemma write_text_unwritable (p text : string) (files : filesystem) :
  writable p files = false -> write_text p text files = None.
Proof.
  unfold writable, write_text.
  destruct (fs_lookup p files) as [[old r [|]|]|]; try discriminate; auto.
Qed.

(** ** The structured-output reporter *)

Section Reporter.

Context {codec : Codec} {world : World}.

(** A report whose write succeeds: the fields are merged and the file holds
    [persisted_text] of the merged mapping, and nothing else. *)
Lemma put_structured_out_written (sout : dict) (st : state) (p : string)
    (files' : filesystem) :
  stroutfile st = Some p ->
  write_text p (persisted_text (dict_update (structuredOut st) sout)) (fs st)
    = Some files' ->
  put_structured_out sout st =
  (Ok tt, mkState files' (config st) (stroutfile st)
            (dict_update (structuredOut st) sout)
            (stdout st) (stderr st) (trace st)).
Proof.
  intros Hp Hw.
  unfold put_structured_out, try_except, bind, structuredOut_update,
    get_structuredOut, get_stroutfile, open_write; cbn.
  rewrite Hp. unfold persisted_text in Hw. cbn. now rewrite Hw.
Qed.

(** A report whose write fails with [IOError]: nothing is raised, the file
    system is untouched, and the fields and then [errMsg] are merged into
    the mapping kept in memory. *)
Lemma put_structured_out_failed (sout : dict) (st : state) (p : string) :
  stroutfile st = Some p ->
  writable p (fs st) = false ->
  put_structured_out sout st =
  (Ok tt, mkState (fs st) (config st) (stroutfile st)
            (dict_update (dict_update (structuredOut st) sout)
                         (errMsg_entry p))
            (stdout st) (stderr st) (trace st)).
Proof.
  intros Hp Hw.
  unfold put_structured_out, try_except, bind, structuredOut_update,
    get_structuredOut, get_stroutfile, open_write; cbn.
  rewrite Hp. cbn.
  now rewrite (write_text_unwritable _ _ _ Hw).
Qed.

End Reporter.

(** The text of a string never is the text of an object: the one starts
    with a quote, the other with a brace. *)
Lemma PyJson_string_text_is_not_object_text (s : string) (d : dict) :
  PyJson.dumps (Str s) <> PyJson.dumps (Obj d).
Proof.
  simpl. unfold PyJson.quote, PyJson.chr. simpl. discriminate.
Qed.

(** Whatever is reported, the file never holds the serialized mapping
    itself. *)
Lemma put_structured_out_never_object_text (sout : dict) (st st' : state)
    (p : string) :
  stroutfile st = Some p ->
  writable p (fs st) = true ->
  put_structured_out (codec := PyJson.codec) sout st = (Ok tt, st') ->
  structuredOut st' = dict_update (structuredOut st) sout /\
  file_content p (fs st') =
    Some (PyJson.dumps (Str (PyJson.dumps (Obj (structuredOut st'))))) /\
  file_content p (fs st') <> Some (PyJson.dumps (Obj (structuredOut st'))).
Proof.
  intros Hp Hw Hrun.
  destruct (write_text_writable p
              (persisted_text (codec := PyJson.codec)
                 (dict_update (structuredOut st) sout))
              (fs st) Hw) as [files' Hfiles].
  rewrite (put_structured_out_written sout st p files' Hp Hfiles) in Hrun.
  injection Hrun as <-. cbn [fs structuredOut].
  apply write_text_content in Hfiles.
  split; [reflexivity|]. split; [exact Hfiles|].
  rewrite Hfiles. intros H.
  apply (f_equal (fun o => match o with Some t => t | None => "" end)) in H.
  exact (PyJson_string_text_is_not_object_text _ _ H).
Qed.

(** C1.  Evaluation of [put_structured_out] on the two call sequences of
    the claim, with a writable output path.  The fields are merged with
    last-write-wins ([a] and [b] are both kept; [a] ends as 3) and each call
    rewrites the whole file.  What the file holds, however, is not the JSON
    serialization of the accumulated mapping: line 48 serializes the text
    that line 46 has already serialized, so the file holds a JSON string
    whose content is that text. *)
Theorem C1_structured_out_is_serialized_twice :
  (exists st',
     (put_structured_out (codec := PyJson.codec) report_a1 ;;
      put_structured_out (codec := PyJson.codec) report_b2)
       (reporting_state []) = (Ok tt, st') /\
     structuredOut st' = [("a", Int 1); ("b", Int 2)] /\
     PyJson.dumps (Obj (structuredOut st')) = object_text_ab /\
     file_content out_path (fs st') = Some string_text_ab /\
     file_content out_path (fs st') =
       Some (PyJson.dumps (Str (PyJson.dumps (Obj (structuredOut st'))))) /\
     file_content out_path (fs st') <>
       Some (PyJson.dumps (Obj (structuredOut st')))) /\
  (exists st',
     (put_structured_out (codec := PyJson.codec) report_a1 ;;
      put_structured_out (codec := PyJson.codec) report_a3)
       (reporting_state []) = (Ok tt, st') /\
     structuredOut st' = [("a", Int 3)] /\
     file_content out_path (fs st') =
       Some (PyJson.dumps (Str (PyJson.dumps (Obj (structuredOut st'))))) /\
     file_content out_path (fs st') <>
       Some (PyJson.dumps (Obj (structuredOut st')))).
Proof.
  split; eexists; (split; [vm_compute; reflexivity|]);
    repeat (split; [vm_compute; reflexivity|]);
    vm_compute; discriminate.
Qed.

(** C8.  When the write of the structured-output file fails with
    [IOError], [put_structured_out] returns normally, leaves the files as
    they were and records [errMsg], naming the path, in the mapping kept in
    memory.  A later report whose write succeeds persists a mapping that
    still has the key [errMsg] (with the recorded message unless the new
    fields overwrite it) together with every field of the new report. *)
Theorem C8_write_failure_is_recorded {codec : Codec}
    (sout : dict) (st : state) (p : string) :
  stroutfile st = Some p ->
  writable p (fs st) = false ->
  exists st1,
    put_structured_out sout st = (Ok tt, st1) /\
    fs st1 = fs st /\
    structuredOut st1 =
      dict_update (dict_update (structuredOut st) sout) (errMsg_entry p) /\
    dict_get "errMsg" (structuredOut st1) =
      Some (Str ("Unable to write to " ++ p)) /\
    forall (sout2 : dict) (st2 : state),
      structuredOut st2 = structuredOut st1 ->
      stroutfile st2 = Some p ->
      writable p (fs st2) = true ->
      exists st3,
        put_structured_out sout2 st2 = (Ok tt, st3) /\
        structuredOut st3 = dict_update (structuredOut st1) sout2 /\
        file_content p (fs st3) = Some (persisted_text (structuredOut st3)) /\
        has_key "errMsg" (structuredOut st3) = true /\
        (dict_get "errMsg" sout2 = None ->
         dict_get "errMsg" (structuredOut st3) =
           Some (Str ("Unable to write to " ++ p))) /\
        (forall k v, dict_get k (rev sout2) = Some v ->
                     dict_get k (structuredOut st3) = Some v).
Proof.
  intros Hp Hw.
  rewrite (put_structured_out_failed sout st p Hp Hw).
  eexists. split; [reflexivity|]. cbn [fs structuredOut].
  assert (Herr : dict_get "errMsg"
                   (dict_update (dict_update (structuredOut st) sout)
                                (errMsg_entry p)) =
                 Some (Str ("Unable to write to " ++ p))).
  { rewrite dict_get_update. reflexivity. }
  repeat split; auto.
  intros sout2 st2 Hacc Hp2 Hw2.
  destruct (write_text_writable p
              (persisted_text (dict_update (structuredOut st2) sout2))
              (fs st2) Hw2) as [files' Hfiles].
  rewrite (put_structured_out_written sout2 st2 p files' Hp2 Hfiles).
  eexists. split; [reflexivity|]. cbn [fs structuredOut]. rewrite Hacc.
  split; [reflexivity|].
  split; [rewrite <- Hacc; now apply write_text_content in Hfiles|].
  split.
  { apply has_key_update_old. unfold has_key. now rewrite Herr. }
  split.
  { intros Habs. now rewrite dict_get_update_absent. }
  intros k v Hk. now rewrite dict_get_update, Hk.
Qed.

Lemma C8_witness :
  stroutfile (reporting_state read_only_out) = Some out_path /\
  writable out_path (fs (reporting_state read_only_out)) = false /\
  exists st1,
    put_structured_out (codec := PyJson.codec) report_a1
      (reporting_state read_only_out) = (Ok tt, st1) /\
    structuredOut st1 =
      [("a", Int 1); ("errMsg", Str ("Unable to write to " ++ out_path))].
Proof.
  split; [reflexivity|]. split; [reflexivity|].
  destruct (C8_write_failure_is_recorded (codec := PyJson.codec)
              report_a1 (reporting_state read_only_out) out_path
              eq_refl eq_refl) as (st1 & Hrun & _ & Hacc & _).
  exists st1. split; [exact Hrun|]. rewrite Hacc. reflexivity.
Defined.

(** ** The package installation handler *)

Lemma add_events_nil (st : state) : add_events [] st = st.
Proof.
  destruct st; unfold add_events; cbn. now rewrite app_nil_r.
Qed.

Lemma add_events_app (a b : list event) (st : state) :
  add_events b (add_events a st) = add_events (a ++ b) st.
Proof.
  unfold add_events; cbn. now rewrite app_assoc.
Qed.

Lemma emit_run (e : event) (st : state) :
  emit e st = (Ok tt, add_events [e] st).
Proof. reflexivity. Qed.

(** A collaborator call leaves its record and the outcome the world gives
    it at that point. *)
Lemma call_out_run (e : event) (oracle : list event -> option exn)
    (st : state) :
  call_out e oracle st = (outcome_of (oracle (trace st)), add_events [e] st).
Proof.
  unfold call_out, emit, add_events, outcome_of.
  now destruct (oracle (trace st)).
Qed.

Ltac script_steps :=
  unfold install, install_packages, bind, try_except, when, lift, loads,
    get_config, RepoInstaller_install_repos, RepoInstaller_remove_repos,
    Package, raise, ret.

Section Installer.

Context {codec : Codec} {world : World}.

(** A failing repository registration ends [install_packages] at once:
    nothing is looked up, installed or cleaned up. *)
Lemma install_packages_registration_fails (env : environment) (st : state)
    (cfg : dict) (e : exn) :
  config st = Some cfg ->
  repo_install_repos (trace st) cfg = Some e ->
  install_packages env st = (Raise e, add_events [EvInstallRepos cfg] st).
Proof.
  intros Hcfg Hrepo. script_steps.
  rewrite Hcfg, call_out_run, Hrepo. reflexivity.
Qed.

(** The loop over the parsed package list: descriptors that carry a name
    are installed one after the other, as long as the primitive returns. *)
Lemma for_each_named (pre rest : list value) (names : list value)
    (st : state) :
  Forall2 (fun p n => getitem p "name" = Ok n) pre names ->
  (forall h n, In n names -> package_resource h n = None) ->
  for_each (pre ++ rest)
    (fun package => name <- lift (getitem package "name") ;; Package name) st
  = for_each rest
      (fun package => name <- lift (getitem package "name") ;; Package name)
      (add_events (map EvPackage names) st).
Proof.
  intros Hnames. revert st.
  induction Hnames as [|p n pre' names' Hp _ IH]; intros st Hok.
  - cbn [map app]. now rewrite add_events_nil.
  - cbn [app for_each map]. unfold bind at 1. unfold bind at 1.
    unfold lift at 1. rewrite Hp. unfold Package at 1.
    rewrite call_out_run, (Hok _ n (or_introl eq_refl)). cbn [outcome_of].
    rewrite IH by (intros h m Hm; apply Hok; now right).
    now rewrite add_events_app.
Qed.

(** The package list is a non-empty text that decodes to a list whose
    leading descriptors carry a name and which then ends or continues with
    a descriptor without one: the named ones are installed in order, the
    rest is skipped, and the cleanup call decides the outcome. *)
Lemma install_packages_named_prefix (env : environment) (st : state)
    (cfg : dict) (s : string) (pre names : list value)
    (rest : list value) :
  config st = Some cfg ->
  package_list_lookup cfg = Ok (Str s) ->
  s <> "" ->
  json_loads s = Some (Arr (pre ++ rest)) ->
  Forall2 (fun p n => getitem p "name" = Ok n) pre names ->
  match rest with
  | [] => True
  | d :: _ => getitem d "name" = Raise KeyError
  end ->
  repo_install_repos (trace st) cfg = None ->
  (forall h n, In n names -> package_resource h n = None) ->
  install_packages env st =
  (outcome_of
     (repo_remove_repos
        (trace st ++ EvInstallRepos cfg :: map EvPackage names) cfg),
   add_events
     (EvInstallRepos cfg :: map EvPackage names ++ [EvRemoveRepos cfg]) st).
Proof.
  intros Hcfg Hlook Hs Hloads Hnames Hrest Hrepo Hpkg.
  unfold package_list_lookup in Hlook.
  destruct (ConfigDictionary_getitem (Obj cfg) "hostLevelParams") as [hlp| |] eqn:Hhlp;
    try discriminate.
  script_steps. rewrite Hcfg, call_out_run, Hrepo. cbn [outcome_of].
  rewrite Hhlp, Hlook.
  destruct s as [|c s']; [congruence|]. cbn [String.length Nat.ltb Nat.leb].
  rewrite Hloads. cbn [py_iter].
  fold (@bind value unit) (@lift value) (@Package world).
  rewrite (for_each_named pre rest names _ Hnames Hpkg).
  rewrite add_events_app.
  assert (Hend :
    exists r,
      for_each rest
        (fun package => name <- lift (getitem package "name") ;; Package name)
        (add_events ([EvInstallRepos cfg] ++ map EvPackage names) st)
      = (r, add_events ([EvInstallRepos cfg] ++ map EvPackage names) st) /\
      (r = Ok tt \/ r = Raise KeyError)).
  { destruct rest as [|d rest'].
    - exists (Ok tt). split; auto.
    - exists (Raise KeyError). split; auto.
      cbn [for_each]. unfold bind, lift. now rewrite Hrest. }
  destruct Hend as (r & Hrun & [-> | ->]); rewrite Hrun;
    cbn [exn_eqb]; rewrite call_out_run, add_events_app; reflexivity.
Qed.

End Installer.

Lemma foo_bar_decoded :
  PyJson.loads foo_bar_text =
  Some (Arr [Obj [("name", Str "foo")]; Obj [("name", Str "bar")]]).
Proof. vm_compute. reflexivity. Qed.

(** C2.  With [package_list] holding the text
    [[{"name":"foo"},{"name":"bar"}]], and the registration and the two
    installations returning, [install_packages] makes exactly these calls,
    in this order: register the repositories, install [foo], install [bar],
    clean the repositories up; its outcome is the one of the cleanup. *)
Theorem C2_foo_then_bar {world : World} (env : environment) (st : state)
    (cfg : dict) :
  config st = Some cfg ->
  package_list_lookup cfg = Ok (Str foo_bar_text) ->
  repo_install_repos (trace st) cfg = None ->
  (forall h, package_resource h (Str "foo") = None) ->
  (forall h, package_resource h (Str "bar") = None) ->
  install_packages (codec := PyJson.codec) env st =
  (outcome_of
     (repo_remove_repos
        (trace st ++ [EvInstallRepos cfg; EvPackage (Str "foo");
                      EvPackage (Str "bar")]) cfg),
   add_events [EvInstallRepos cfg; EvPackage (Str "foo");
               EvPackage (Str "bar"); EvRemoveRepos cfg] st).
Proof.
  intros Hcfg Hlook Hrepo Hfoo Hbar.
  apply (install_packages_named_prefix (codec := PyJson.codec) env st cfg
           foo_bar_text
           [Obj [("name", Str "foo")]; Obj [("name", Str "bar")]]
           [Str "foo"; Str "bar"] []); auto.
  - vm_compute. discriminate.
  - intros h n [<- | [<- | []]]; auto.
Qed.

Lemma C2_witness :
  install_packages (codec := PyJson.codec) (world := quiet_world) work_dir
    (configured_state (config_with_packages foo_bar_text)) =
  (Ok tt,
   add_events
     [EvInstallRepos (config_with_packages foo_bar_text);
      EvPackage (Str "foo"); EvPackage (Str "bar");
      EvRemoveRepos (config_with_packages foo_bar_text)]
     (configured_state (config_with_packages foo_bar_text))).
Proof.
  apply (C2_foo_then_bar (world := quiet_world) work_dir
           (configured_state (config_with_packages foo_bar_text))
           (config_with_packages foo_bar_text));
    reflexivity.
Defined.

Section InstallerClaims.

Context {codec : Codec} {world : World}.

(** C4.  When the lookup of [hostLevelParams.package_list] meets a missing
    key (at either step) or yields the empty string, [install_packages]
    calls the registration and, once that has returned, the cleanup, and
    nothing else: the installation primitive is not invoked, the lookup
    raises nothing, and the outcome is the one of the cleanup. *)
Theorem C4_no_package_list (env : environment) (st : state) (cfg : dict) :
  config st = Some cfg ->
  package_list_lookup cfg = Raise KeyError \/
  package_list_lookup cfg = Ok (Str "") ->
  install_packages env st =
  match repo_install_repos (trace st) cfg with
  | None =>
      (outcome_of (repo_remove_repos (trace st ++ [EvInstallRepos cfg]) cfg),
       add_events [EvInstallRepos cfg; EvRemoveRepos cfg] st)
  | Some e => (Raise e, add_events [EvInstallRepos cfg] st)
  end.
Proof.
  intros Hcfg Hlook. unfold package_list_lookup in Hlook.
  destruct (repo_install_repos (trace st) cfg) as [e|] eqn:Hrepo.
  { now apply install_packages_registration_fails. }
  script_steps. rewrite Hcfg, call_out_run, Hrepo. cbn [outcome_of].
  destruct (ConfigDictionary_getitem (Obj cfg) "hostLevelParams")
    as [hlp|e|c] eqn:Hhlp.
  - destruct Hlook as [-> | ->]; cbn [exn_eqb String.length Nat.ltb Nat.leb];
      rewrite call_out_run, add_events_app; reflexivity.
  - destruct Hlook as [Hk | Hk]; [|discriminate].
    injection Hk as ->. cbn [exn_eqb].
    rewrite call_out_run, add_events_app; reflexivity.
  - destruct Hlook; discriminate.
Qed.

(** C9, as the code has it.  When [package_list] is a non-empty text that
    [json.loads] rejects, the [ValueError] is not a [KeyError] and passes
    the [except] clause: once the registration has returned,
    [install_packages] ends with [ValueError], having installed nothing and
    without calling the cleanup. *)
Theorem C9_malformed_package_list_raises (env : environment) (st : state)
    (cfg : dict) (s : string) :
  config st = Some cfg ->
  package_list_lookup cfg = Ok (Str s) ->
  s <> "" ->
  json_loads s = None ->
  repo_install_repos (trace st) cfg = None ->
  install_packages env st =
  (Raise ValueError, add_events [EvInstallRepos cfg] st).
Proof.
  intros Hcfg Hlook Hs Hloads Hrepo. unfold package_list_lookup in Hlook.
  destruct (ConfigDictionary_getitem (Obj cfg) "hostLevelParams") as [hlp| |] eqn:Hhlp;
    try discriminate.
  script_steps. rewrite Hcfg, call_out_run, Hrepo. cbn [outcome_of].
  rewrite Hhlp, Hlook.
  destruct s as [|c s']; [congruence|]. cbn [String.length Nat.ltb Nat.leb].
  rewrite Hloads. reflexivity.
Qed.

(** C10.  When the decoded package list has a descriptor without the key
    [name], preceded by descriptors that have one, the [KeyError] of line
    132 is absorbed: the packages before that descriptor are installed in
    order, nothing at or after it is installed, the cleanup is called, and
    the outcome of [install_packages] is the one of the cleanup. *)
Theorem C10_descriptor_without_name (env : environment) (st : state)
    (cfg : dict) (s : string) (pre post : list value) (names : list value)
    (d : dict) :
  config st = Some cfg ->
  package_list_lookup cfg = Ok (Str s) ->
  s <> "" ->
  json_loads s = Some (Arr (pre ++ Obj d :: post)) ->
  Forall2 (fun p n => exists m, p = Obj m /\ dict_get "name" m = Some n)
          pre names ->
  dict_get "name" d = None ->
  repo_install_repos (trace st) cfg = None ->
  (forall h n, In n names -> package_resource h n = None) ->
  install_packages env st =
  (outcome_of
     (repo_remove_repos
        (trace st ++ EvInstallRepos cfg :: map EvPackage names) cfg),
   add_events
     (EvInstallRepos cfg :: map EvPackage names ++ [EvRemoveRepos cfg]) st).
Proof.
  intros Hcfg Hlook Hs Hloads Hnames Hd Hrepo Hpkg.
  apply (install_packages_named_prefix env st cfg s pre names
           (Obj d :: post)); auto.
  - clear -Hnames. induction Hnames as [|p n l l' (m & -> & Hm) _ IH];
      constructor; auto.
    cbn. now rewrite Hm.
  - cbn. now rewrite Hd.
Qed.

End InstallerClaims.

Lemma C4_witness :
  install_packages (codec := PyJson.codec) (world := quiet_world) work_dir
    (configured_state []) =
  (Ok tt,
   add_events [EvInstallRepos []; EvRemoveRepos []] (configured_state [])).
Proof.
  apply (C4_no_package_list (codec := PyJson.codec) (world := quiet_world)
           work_dir (configured_state []) []).
  - reflexivity.
  - left. reflexivity.
Defined.

Lemma C9_witness :
  install_packages (codec := PyJson.codec) (world := quiet_world) work_dir
    (configured_state (config_with_packages malformed_text)) =
  (Raise ValueError,
   add_events [EvInstallRepos (config_with_packages malformed_text)]
     (configured_state (config_with_packages malformed_text))).
Proof.
  apply (C9_malformed_package_list_raises (codec := PyJson.codec)
           (world := quiet_world) work_dir
           (configured_state (config_with_packages malformed_text))
           (config_with_packages malformed_text) malformed_text).
  - reflexivity.
  - reflexivity.
  - vm_compute. discriminate.
  - vm_compute. reflexivity.
  - reflexivity.
Defined.

(** The claim C9 as the specification words it fails on a concrete input:
    [package_list] is the non-empty text [[{"name":"foo"}], which is not
    valid JSON, no collaborator fails, and yet [install_packages] does not
    complete: it raises [ValueError], and the cleanup has not been called. *)
Lemma C9_counterexample :
  package_list_lookup (config_with_packages malformed_text)
    = Ok (Str malformed_text) /\
  malformed_text <> "" /\
  json_loads (Codec := PyJson.codec) malformed_text = None /\
  (forall st',
     install_packages (codec := PyJson.codec) (world := quiet_world) work_dir
       (configured_state (config_with_packages malformed_text))
     <> (Ok tt, st')) /\
  (forall r st',
     install_packages (codec := PyJson.codec) (world := quiet_world) work_dir
       (configured_state (config_with_packages malformed_text)) = (r, st') ->
     r = Raise ValueError /\
     ~ In (EvRemoveRepos (config_with_packages malformed_text)) (trace st')).
Proof.
  split; [reflexivity|]. split; [vm_compute; discriminate|].
  split; [vm_compute; reflexivity|].
  assert (Hrun :
    install_packages (codec := PyJson.codec) (world := quiet_world) work_dir
      (configured_state (config_with_packages malformed_text)) =
    (Raise ValueError,
     add_events [EvInstallRepos (config_with_packages malformed_text)]
       (configured_state (config_with_packages malformed_text))))
    by (vm_compute; reflexivity).
  rewrite Hrun. split.
  - intros st' H. discriminate.
  - intros r st' H. injection H as <- <-. split; [reflexivity|].
    cbn. intros [H | []]. discriminate.
Qed.

Lemma C10_witness :
  install_packages (codec := PyJson.codec) (world := quiet_world) work_dir
    (configured_state (config_with_packages nameless_text)) =
  (Ok tt,
   add_events
     [EvInstallRepos (config_with_packages nameless_text);
      EvPackage (Str "foo");
      EvRemoveRepos (config_with_packages nameless_text)]
     (configured_state (config_with_packages nameless_text))).
Proof.
  apply (C10_descriptor_without_name (codec := PyJson.codec)
           (world := quiet_world) work_dir
           (configured_state (config_with_packages nameless_text))
           (config_with_packages nameless_text) nameless_text
           [Obj [("name", Str "foo")]] [Obj [("name", Str "bar")]]
           [Str "foo"] [("version", Str "1")]).
  - reflexivity.
  - reflexivity.
  - vm_compute. discriminate.
  - vm_compute. reflexivity.
  - constructor; [|constructor]. eexists. split; reflexivity.
  - reflexivity.
  - reflexivity.
  - reflexivity.
Defined.

(** ** The execution envelope *)

Lemma existsb_of_find_attribute (name : string)
    (l : list (string * attribute)) (a : attribute) :
  find_attribute name l = Some a ->
  existsb (String.eqb name) (map fst l) = true.
Proof.
  induction l as [|[n b] rest IH]; cbn; [discriminate|].
  destruct (String.eqb name n); auto.
Qed.

Lemma find_attribute_of_existsb (name : string)
    (l : list (string * attribute)) :
  existsb (String.eqb name) (map fst l) = true ->
  exists a, find_attribute name l = Some a.
Proof.
  induction l as [|[n b] rest IH]; cbn; [discriminate|].
  destruct (String.eqb name n); eauto.
Qed.

Lemma find_attribute_app (name : string) (l1 l2 : list (string * attribute)) :
  find_attribute name (l1 ++ l2) =
  match find_attribute name l1 with
  | Some a => Some a
  | None => find_attribute name l2
  end.
Proof.
  induction l1 as [|[n a] rest IH]; cbn; [reflexivity|].
  destruct (String.eqb name n); auto.
Qed.

(** A name the script does not define is looked up in what follows. *)
Lemma find_attribute_undefined (self : script_class) (name : string)
    (l : list (string * attribute)) :
  defines self name = false ->
  find_attribute name (self ++ l) = find_attribute name l.
Proof.
  unfold defines. intros Hdef. rewrite find_attribute_app.
  destruct (find_attribute name self) as [a|] eqn:E; [|reflexivity].
  apply existsb_of_find_attribute in E. congruence.
Qed.

(** Every name but [stroutfile] is looked up in the classes. *)
Lemma find_attribute_past_instance (name : string)
    (l : list (string * attribute)) :
  String.eqb name "stroutfile" = false ->
  find_attribute name (instance_attributes ++ l) = find_attribute name l.
Proof. intros Hne. cbn. now rewrite Hne. Qed.

(** What [getattr] finds is in [dir(self)]. *)
Lemma dir_of_getattr {codec : Codec} {world : World} (self : script_class)
    (name : string) (a : attribute) :
  find_attribute name (instance_attributes ++ self ++ Script_attributes)
    = Some a ->
  existsb (String.eqb name) (dir self) = true.
Proof.
  unfold dir. destruct (String.eqb name "stroutfile") eqn:E.
  - intros _. apply String.eqb_eq in E. subst name.
    rewrite map_app, existsb_app. apply orb_true_iff. right. reflexivity.
  - rewrite (find_attribute_past_instance _ _ E).
    apply existsb_of_find_attribute.
Qed.

Lemma enough_arguments (argv : list string) :
  5 <= List.length argv -> (List.length argv <? 5)%nat = false.
Proof. intros H. apply Nat.ltb_ge. exact H. Qed.

Ltac envelope_steps :=
  unfold execute, bind, try_except, when, lift, loads, raise, ret,
    logger_error, logger_exception, log, sys_exit, set_stroutfile,
    set_config, open_read, getattr.

Section Envelope.

Context {codec : Codec} {world : World}.

(** The command file cannot be opened or read: lines 82-84. *)
Lemma execute_unreadable (self : script_class) (argv : list string)
    (st : state) :
  5 <= List.length argv ->
  read_text (nth 2 argv "") (fs st) = None ->
  execute self argv st =
  (Exit 1,
   add_log (LogException "Can not read json file with command parameters: ")
           (parsed_state (nth 4 argv "") st)).
Proof.
  intros Hlen Hread. envelope_steps.
  rewrite (enough_arguments _ Hlen). cbn [fs].
  rewrite Hread. reflexivity.
Qed.

(** The command file is read and its text is not JSON: the [ValueError] of
    [json.load] leaves [execute], no clause being there for it. *)
Lemma execute_not_json (self : script_class) (argv : list string)
    (st : state) (text : string) :
  5 <= List.length argv ->
  read_text (nth 2 argv "") (fs st) = Some text ->
  json_loads text = None ->
  execute self argv st = (Raise ValueError, parsed_state (nth 4 argv "") st).
Proof.
  intros Hlen Hread Hloads. envelope_steps.
  rewrite (enough_arguments _ Hlen). cbn [fs].
  rewrite Hread, Hloads. reflexivity.
Qed.

(** With enough arguments and a command file that loads, [execute] reaches
    the membership test of line 87 in [loaded_state]; a name that is not in
    [dir(self)] is reported on both channels and the process exits with
    status 1: no environment is acquired and nothing is called. *)
Lemma execute_unknown_name (self : script_class) (argv : list string)
    (st : state) (text : string) (document : value) (cfg : dict) :
  5 <= List.length argv ->
  read_text (nth 2 argv "") (fs st) = Some text ->
  json_loads text = Some document ->
  ConfigDictionary document = Ok cfg ->
  existsb (String.eqb (lower (nth 1 argv ""))) (dir self) = false ->
  execute self argv st =
  (Exit 1,
   add_log (LogError ("Script " ++ nth 0 argv "" ++ " has not method '"
                        ++ lower (nth 1 argv "") ++ "'"))
           (loaded_state (nth 4 argv "") cfg st)).
Proof.
  intros Hlen Hread Hloads Hcfg Hdir. envelope_steps.
  rewrite (enough_arguments _ Hlen). cbn [fs].
  rewrite Hread, Hloads, Hcfg, Hdir. reflexivity.
Qed.

(** With enough arguments and a command file that loads, a name that is in
    [dir(self)] is looked up and called inside the environment; [Fail]
    becomes exit status 1, anything else is passed on. *)
Lemma execute_known_name (self : script_class) (argv : list string)
    (st : state) (text : string) (document : value) (cfg : dict)
    (method : attribute) :
  5 <= List.length argv ->
  read_text (nth 2 argv "") (fs st) = Some text ->
  json_loads text = Some document ->
  ConfigDictionary document = Ok cfg ->
  find_attribute (lower (nth 1 argv ""))
    (instance_attributes ++ self ++ Script_attributes) = Some method ->
  execute self argv st =
  try_except Fail
    (with_Environment (nth 3 argv "")
       (call (lower (nth 1 argv "")) method))
    (logger_exception ("Got exception while executing method '"
                         ++ lower (nth 1 argv "") ++ "':") ;;
     sys_exit 1)
    (loaded_state (nth 4 argv "") cfg st).
Proof.
  intros Hlen Hread Hloads Hcfg Hfind.
  pose proof (dir_of_getattr _ _ _ Hfind) as Hdir.
  envelope_steps.
  rewrite (enough_arguments _ Hlen). cbn [fs].
  rewrite Hread, Hloads, Hcfg, Hdir, Hfind. reflexivity.
Qed.

End Envelope.

Section EnvelopeClaims.

Context {codec : Codec} {world : World}.

(** C7.  With fewer than four arguments after the program name, [execute]
    logs the complaint and exits with status 1; the state is otherwise the
    one it started from, so no Configuration has been loaded (and no output
    path stored, no file touched, nothing called). *)
Theorem C7_too_few_arguments (self : script_class) (argv : list string)
    (st : state) :
  List.length (tl argv) < 4 ->
  execute self argv st =
    (Exit 1, add_log (LogError "Script expects at least 4 arguments") st) /\
  exit_status (fst (execute self argv st)) = 1%Z /\
  config (snd (execute self argv st)) = config st.
Proof.
  intros Hlen.
  assert (Hlt : (List.length argv <? 5)%nat = true).
  { apply Nat.ltb_lt. destruct argv; cbn in *; lia. }
  assert (Hrun : execute self argv st =
    (Exit 1, add_log (LogError "Script expects at least 4 arguments") st)).
  { envelope_steps. rewrite Hlt. reflexivity. }
  rewrite Hrun. repeat split.
Qed.

(** C5.  With enough arguments, when the command file cannot be read, or
    can be read and is not valid JSON, the process ends with status 1 and
    has acquired no environment, called no handler and loaded no
    Configuration.  An unreadable file takes the logged [sys.exit(1)] of
    lines 82-84; a text that is not JSON raises [ValueError], which no
    clause of [execute] catches, so the interpreter ends the process. *)
Theorem C5_config_load_failure (self : script_class) (argv : list string)
    (st : state) :
  5 <= List.length argv ->
  read_text (nth 2 argv "") (fs st) = None \/
  (exists text, read_text (nth 2 argv "") (fs st) = Some text /\
                json_loads text = None) ->
  exists r st',
    execute self argv st = (r, st') /\
    exit_status r = 1%Z /\
    trace st' = trace st /\
    config st' = config st /\
    (read_text (nth 2 argv "") (fs st) = None -> r = Exit 1) /\
    (read_text (nth 2 argv "") (fs st) <> None -> r = Raise ValueError).
Proof.
  intros Hlen [Hread | (text & Hread & Hloads)].
  - rewrite (execute_unreadable self argv st Hlen Hread).
    eexists. eexists. split; [reflexivity|].
    cbn. repeat split; auto. congruence.
  - rewrite (execute_not_json self argv st text Hlen Hread Hloads).
    eexists. eexists. split; [reflexivity|].
    cbn. repeat split; auto. congruence.
Qed.

(** C3.  For a script that leaves [install], [install_packages] and
    [get_config] as [Script] has them, the command [install] resolves to
    the default handler, whose call [self.install_packages(env)] runs
    [install_packages], which reads the configuration through
    [self.get_config()].  When the repository registration raises, the
    process ends with status 1 (through the [except Fail] clause when the
    exception is [Fail]) and the calls made are: enter the environment,
    call the handler, register the repositories, leave the environment.
    The cleanup is not among them. *)
Theorem C3_registration_failure (self : script_class) (argv : list string)
    (st : state) (text : string) (document : value) (cfg : dict) (e : exn) :
  5 <= List.length argv ->
  lower (nth 1 argv "") = "install" ->
  defines self "install" = false ->
  defines self "install_packages" = false ->
  defines self "get_config" = false ->
  read_text (nth 2 argv "") (fs st) = Some text ->
  json_loads text = Some document ->
  ConfigDictionary document = Ok cfg ->
  repo_install_repos
    (trace st ++ [EvEnvEnter (nth 3 argv ""); EvCall "install" (nth 3 argv "")])
    cfg = Some e ->
  exists r st',
    execute self argv st = (r, st') /\
    exit_status r = 1%Z /\
    (e = Fail -> r = Exit 1) /\
    trace st' =
      (trace st ++ [EvEnvEnter (nth 3 argv "");
                    EvCall "install" (nth 3 argv "");
                    EvInstallRepos cfg;
                    EvEnvExit (nth 3 argv "")])%list /\
    (forall c, In (EvRemoveRepos c) (trace st') ->
               In (EvRemoveRepos c) (trace st)).
Proof.
  intros Hlen Hcmd Hinstall _ _ Hread Hloads Hcfg Hrepo.
  assert (Hfind :
    find_attribute (lower (nth 1 argv ""))
      (instance_attributes ++ self ++ Script_attributes)
    = Some (Method install)).
  { rewrite Hcmd, find_attribute_past_instance by reflexivity.
    now rewrite (find_attribute_undefined self "install" _ Hinstall). }
  rewrite (execute_known_name self argv st text document cfg _
             Hlen Hread Hloads Hcfg Hfind).
  rewrite Hcmd.
  set (b := nth 3 argv "") in *.
  set (st0 := loaded_state (nth 4 argv "") cfg st).
  assert (Hbody :
    with_Environment b (call "install" (Method install)) st0 =
    (Raise e,
     add_events [EvEnvEnter b; EvCall "install" b; EvInstallRepos cfg;
                 EvEnvExit b] st0)).
  { unfold with_Environment, call, bind, install.
    rewrite emit_run. cbv beta iota.
    rewrite emit_run. cbv beta iota. rewrite add_events_app.
    rewrite (install_packages_registration_fails b _ cfg e);
      [|reflexivity|exact Hrepo].
    rewrite emit_run. cbn [snd]. now rewrite !add_events_app. }
  unfold try_except. rewrite Hbody.
  destruct (exn_eqb e Fail) eqn:He.
  - exists (Exit 1). eexists. split.
    { unfold bind, logger_exception, log, sys_exit. reflexivity. }
    split; [reflexivity|]. split; [reflexivity|]. split; [reflexivity|].
    intros c Hin. cbn in Hin. apply in_app_or in Hin.
    destruct Hin as [Hin | Hin]; auto.
    cbn in Hin. intuition discriminate.
  - exists (Raise e). eexists. split; [reflexivity|].
    split; [reflexivity|].
    split; [intros ->; discriminate He|]. split; [reflexivity|].
    intros c Hin. cbn in Hin. apply in_app_or in Hin.
    destruct Hin as [Hin | Hin]; auto.
    cbn in Hin. intuition discriminate.
Qed.

End EnvelopeClaims.

Lemma C7_witness :
  execute (codec := PyJson.codec) (world := quiet_world) [] argv_short
    (initial_state empty_config_files) =
  (Exit 1,
   add_log (LogError "Script expects at least 4 arguments")
     (initial_state empty_config_files)).
Proof.
  apply (C7_too_few_arguments (codec := PyJson.codec) (world := quiet_world)
           [] argv_short (initial_state empty_config_files)).
  cbn. lia.
Defined.

Lemma C5_witness :
  exists r st',
    execute (codec := PyJson.codec) (world := quiet_world) []
      (argv_for "install") (initial_state broken_json_files) = (r, st') /\
    exit_status r = 1%Z /\ trace st' = [] /\ config st' = None.
Proof.
  destruct (C5_config_load_failure (codec := PyJson.codec)
              (world := quiet_world) [] (argv_for "install")
              (initial_state broken_json_files))
    as (r & st' & Hrun & Hstatus & Htrace & Hconfig & _).
  - cbn. lia.
  - right. exists "{". split; reflexivity.
  - exists r, st'. repeat split; assumption.
Defined.

Lemma C3_witness :
  exists st',
    execute (codec := PyJson.codec) (world := broken_repos Fail) []
      (argv_for "install") (initial_state empty_config_files)
    = (Exit 1, st') /\
    trace st' = [EvEnvEnter work_dir; EvCall "install" work_dir;
                 EvInstallRepos []; EvEnvExit work_dir].
Proof.
  destruct (C3_registration_failure (codec := PyJson.codec)
              (world := broken_repos Fail) [] (argv_for "install")
              (initial_state empty_config_files) "{}" (Obj []) [] Fail)
    as (r & st' & Hrun & _ & Hfail & Htrace & _).
  - cbn. lia.
  - reflexivity.
  - reflexivity.
  - reflexivity.
  - reflexivity.
  - reflexivity.
  - reflexivity.
  - reflexivity.
  - reflexivity.
  - exists st'. rewrite <- (Hfail eq_refl). split; assumption.
Defined.

(** C6.  Evaluation of [execute] on the command name [config] for a script
    that defines nothing beyond [Script].  [config] is no operation of the
    script: it is the class attribute assigned on line 81.  It is in
    [dir(self)] all the same, so the test of line 87 lets it through: no
    message naming the command is logged, the environment is acquired and
    released around the call of a value that is not callable, and the
    process ends with the uncaught [TypeError] instead of the reported
    exit of lines 88-89. *)
Theorem C6_data_attribute_passes_the_test :
  find_attribute "config"
    ([] ++ Script_attributes (codec := PyJson.codec) (world := quiet_world))
    = Some Data /\
  existsb (String.eqb (lower "config"))
    (dir (codec := PyJson.codec) (world := quiet_world) []) = true /\
  execute (codec := PyJson.codec) (world := quiet_world) []
    (argv_for "config") (initial_state empty_config_files) =
  (Raise TypeError,
   add_events [EvEnvEnter work_dir; EvEnvExit work_dir]
     (loaded_state out_path [] (initial_state empty_config_files))) /\
  stderr (snd (execute (codec := PyJson.codec) (world := quiet_world) []
                 (argv_for "config") (initial_state empty_config_files)))
    = [].
Proof.
  repeat split; vm_compute; reflexivity.
Qed.

(** * Further properties of the script *)

(** ** The reporter, in general *)

(** What [put_structured_out] does in every state: without an output path
    the attribute lookup fails after the merge; with one, the write either
    succeeds or leaves [errMsg] behind. *)
Lemma put_structured_out_run {codec : Codec} (sout : dict) (st : state) :
  put_structured_out sout st =
  match stroutfile st with
  | None =>
      (Raise AttributeError,
       mkState (fs st) (config st) (stroutfile st)
         (dict_update (structuredOut st) sout)
         (stdout st) (stderr st) (trace st))
  | Some p =>
      match write_text p
              (persisted_text (dict_update (structuredOut st) sout)) (fs st)
      with
      | Some files' =>
          (Ok tt,
           mkState files' (config st) (stroutfile st)
             (dict_update (structuredOut st) sout)
             (stdout st) (stderr st) (trace st))
      | None =>
          (Ok tt,
           mkState (fs st) (config st) (stroutfile st)
             (dict_update (dict_update (structuredOut st) sout)
                          (errMsg_entry p))
             (stdout st) (stderr st) (trace st))
      end
  end.
Proof.
  unfold put_structured_out, try_except, bind, structuredOut_update,
    get_structuredOut, get_stroutfile, open_write, persisted_text;
    cbn [fs config stroutfile structuredOut stdout stderr trace].
  destruct (stroutfile st) as [p|]; [|reflexivity].
  cbn [fs config stroutfile structuredOut stdout stderr trace].
  destruct (write_text p _ (fs st)); reflexivity.
Qed.

Lemma fs_store_twice (p : string) (n1 n2 : fnode) (files : filesystem) :
  fs_store p n2 (fs_store p n1 files) = fs_store p n2 files.
Proof.
  induction files as [|[q n] rest IH]; cbn.
  - now rewrite String.eqb_refl.
  - destruct (String.eqb p q) eqn:E; cbn; rewrite E; [reflexivity|].
    now rewrite IH.
Qed.

(** Writing twice to a path is writing the second text once. *)
Lemma write_text_twice (p t1 t2 : string) (files files1 : filesystem) :
  write_text p t1 files = Some files1 ->
  write_text p t2 files1 = write_text p t2 files.
Proof.
  unfold write_text.
  destruct (fs_lookup p files) as [[old r [|]|]|] eqn:E; try discriminate;
    intros H; injection H as <-; rewrite fs_lookup_store_same;
    now rewrite fs_store_twice.
Qed.

Lemma dict_update_app (d a b : dict) :
  dict_update (dict_update d a) b = dict_update d (a ++ b)%list.
Proof. unfold dict_update. now rewrite fold_left_app. Qed.

Section ReporterExtras.

Context {codec : Codec}.

(** X1.  The accumulated mapping only grows: a key that is reported once
    is there after every later call of [put_structured_out], whether the
    write succeeds, fails, or the output path was never set. *)
Theorem X1_reported_keys_stay (sout : dict) (st : state) (k : string) :
  has_key k (structuredOut st) = true ->
  has_key k (structuredOut (snd (put_structured_out sout st))) = true.
Proof.
  intros Hk. rewrite put_structured_out_run.
  destruct (stroutfile st) as [p|]; cbn [snd structuredOut].
  - destruct (write_text p _ (fs st)); cbn [snd structuredOut];
      repeat apply has_key_update_old; exact Hk.
  - now apply has_key_update_old.
Qed.

(** X2.  Once [execute] has stored the output path, [put_structured_out]
    returns normally whatever becomes of the write, and it never fails in
    silence: afterwards either the file holds the snapshot of the whole
    mapping, or the mapping carries [errMsg] naming the path. *)
Theorem X2_reporting_never_fails (sout : dict) (st : state) (p : string) :
  stroutfile st = Some p ->
  exists st',
    put_structured_out sout st = (Ok tt, st') /\
    (file_content p (fs st') = Some (persisted_text (structuredOut st')) \/
     dict_get "errMsg" (structuredOut st') =
       Some (Str ("Unable to write to " ++ p))).
Proof.
  intros Hp. rewrite put_structured_out_run, Hp.
  destruct (write_text p _ (fs st)) as [files'|] eqn:Hw;
    eexists; (split; [reflexivity|]); cbn [fs structuredOut].
  - left. now apply write_text_content in Hw.
  - right. now rewrite dict_get_update.
Qed.

(** X3.  Called on an instance whose [stroutfile] was never assigned,
    [put_structured_out] raises [AttributeError] (it is no [IOError], so
    the [except] clause does not apply), and it does so after the fields
    have been merged: the mapping has changed, no file has. *)
Theorem X3_report_without_output_path (sout : dict) (st : state) :
  stroutfile st = None ->
  exists st',
    put_structured_out sout st = (Raise AttributeError, st') /\
    structuredOut st' = dict_update (structuredOut st) sout /\
    fs st' = fs st.
Proof.
  intros Hp. rewrite put_structured_out_run, Hp.
  eexists. split; [reflexivity|]. split; reflexivity.
Qed.

(** X4.  Two reports in a row, the output path being writable, leave
    exactly what one report of the final mapping leaves: the mapping
    updated by the first and then by the second fields, and a file system
    in which the file holds the snapshot of that mapping; nothing of the
    intermediate snapshot remains. *)
Theorem X4_two_reports_compose (s1 s2 : dict) (st : state) (p : string) :
  stroutfile st = Some p ->
  writable p (fs st) = true ->
  exists files',
    write_text p
      (persisted_text (dict_update (dict_update (structuredOut st) s1) s2))
      (fs st) = Some files' /\
    (put_structured_out s1 ;; put_structured_out s2) st =
    (Ok tt,
     mkState files' (config st) (stroutfile st)
       (dict_update (dict_update (structuredOut st) s1) s2)
       (stdout st) (stderr st) (trace st)) /\
    (put_structured_out s1 ;; put_structured_out s2) st =
    put_structured_out (s1 ++ s2)%list st.
Proof.
  intros Hp Hw.
  destruct (write_text_writable p
              (persisted_text (dict_update (structuredOut st) s1))
              (fs st) Hw) as [files1 H1].
  destruct (write_text_writable p
              (persisted_text
                 (dict_update (dict_update (structuredOut st) s1) s2))
              (fs st) Hw) as [files2 H2].
  exists files2. split; [exact H2|].
  assert (Hrun :
    (put_structured_out s1 ;; put_structured_out s2) st =
    (Ok tt,
     mkState files2 (config st) (stroutfile st)
       (dict_update (dict_update (structuredOut st) s1) s2)
       (stdout st) (stderr st) (trace st))).
  { unfold bind. rewrite (put_structured_out_run s1 st), Hp, H1.
    rewrite put_structured_out_run.
    cbn [fs config stroutfile structuredOut stdout stderr trace].
    rewrite (write_text_twice p _ _ (fs st) files1 H1), H2.
    reflexivity. }
  split; [exact Hrun|].
  rewrite Hrun, put_structured_out_run, Hp, <- dict_update_app, H2.
  reflexivity.
Qed.

(** X5.  A report touches the mapping and at most the one output file: the
    configuration, the output path, both logging channels and the record
    of collaborator calls are as before, and so is every other path of the
    file system. *)
Theorem X5_report_touches_one_file (sout : dict) (st : state)
    (p q : string) :
  stroutfile st = Some p ->
  q <> p ->
  let st' := snd (put_structured_out sout st) in
  fs_lookup q (fs st') = fs_lookup q (fs st) /\
  config st' = config st /\
  stroutfile st' = stroutfile st /\
  stdout st' = stdout st /\
  stderr st' = stderr st /\
  trace st' = trace st.
Proof.
  intros Hp Hq. cbv zeta. rewrite put_structured_out_run, Hp.
  destruct (write_text p _ (fs st)) as [files'|] eqn:Hw;
    cbn [snd fs config stroutfile stdout stderr trace];
    repeat split; auto.
  now apply (write_text_elsewhere p q _ _ _ Hw).
Qed.

(** X6.  Last write wins, key by key: after a report, a key other than
    [errMsg] maps to the value the reported fields give it, and to its
    former value when they do not mention it. *)
Theorem X6_report_is_last_write_wins (sout : dict) (st : state)
    (k : string) :
  k <> "errMsg" ->
  dict_get k (structuredOut (snd (put_structured_out sout st))) =
  match dict_get k (rev sout) with
  | Some v => Some v
  | None => dict_get k (structuredOut st)
  end.
Proof.
  intros Hk. rewrite put_structured_out_run.
  assert (Herr : forall p d,
            dict_get k (dict_update d (errMsg_entry p)) = dict_get k d).
  { intros p d. rewrite dict_get_update. cbn.
    destruct (String.eqb_spec k "errMsg"); [contradiction|reflexivity]. }
  destruct (stroutfile st) as [p|]; cbn [snd structuredOut].
  - destruct (write_text p _ (fs st)); cbn [snd structuredOut];
      rewrite ?Herr; apply dict_get_update.
  - apply dict_get_update.
Qed.

End ReporterExtras.

Lemma X1_witness :
  has_key "a"
    (structuredOut
       (snd (put_structured_out (codec := PyJson.codec) report_b2
               (mkState read_only_out None (Some out_path) report_a1
                        [] [] [])))) = true.
Proof.
  apply (X1_reported_keys_stay (codec := PyJson.codec)). reflexivity.
Defined.

Lemma X2_witness :
  exists st',
    put_structured_out (codec := PyJson.codec) report_a1
      (reporting_state read_only_out) = (Ok tt, st').
Proof.
  destruct (X2_reporting_never_fails (codec := PyJson.codec) report_a1
              (reporting_state read_only_out) out_path eq_refl)
    as (st' & Hrun & _).
  exists st'. exact Hrun.
Defined.

Lemma X3_witness :
  exists st',
    put_structured_out (codec := PyJson.codec) report_a1 (initial_state [])
      = (Raise AttributeError, st') /\
    structuredOut st' = [("a", Int 1)].
Proof.
  destruct (X3_report_without_output_path (codec := PyJson.codec) report_a1
              (initial_state []) eq_refl) as (st' & Hrun & Hacc & _).
  exists st'. split; [exact Hrun|]. rewrite Hacc. reflexivity.
Defined.

Lemma X4_witness :
  (put_structured_out (codec := PyJson.codec) report_a1 ;;
   put_structured_out (codec := PyJson.codec) report_a3)
    (reporting_state []) =
  put_structured_out (codec := PyJson.codec) (report_a1 ++ report_a3)%list
    (reporting_state []).
Proof.
  destruct (X4_two_reports_compose (codec := PyJson.codec) report_a1
              report_a3 (reporting_state []) out_path eq_refl eq_refl)
    as (files' & _ & _ & Heq).
  exact Heq.
Defined.

Lemma X5_witness :
  fs_lookup config_path
    (fs (snd (put_structured_out (codec := PyJson.codec) report_a1
                (reporting_state empty_config_files)))) =
  Some (RegFile "{}" true false).
Proof.
  destruct (X5_report_touches_one_file (codec := PyJson.codec) report_a1
              (reporting_state empty_config_files) out_path config_path
              eq_refl) as (Hfs & _).
  - vm_compute. discriminate.
  - rewrite Hfs. reflexivity.
Defined.

Lemma X6_witness :
  dict_get "a"
    (structuredOut
       (snd (put_structured_out (codec := PyJson.codec) report_a3
               (mkState [] None (Some out_path) report_a1 [] [] [])))) =
  Some (Int 3).
Proof.
  rewrite (X6_report_is_last_write_wins (codec := PyJson.codec)).
  - reflexivity.
  - vm_compute. discriminate.
Defined.

(** ** The package installation handler, in general *)

Section InstallerExtras.

Context {codec : Codec} {world : World}.

Local Abbreviation install_one :=
  (fun package : value =>
     name <- lift (getitem package "name") ;; Package name).

Lemma getitem_never_exits (v : value) (k : string) (code : Z) :
  getitem v k <> Exit code.
Proof.
  destruct v; cbn; try discriminate. destruct (dict_get k members); discriminate.
Qed.

Lemma only_installs_ret : only_installs (ret tt).
Proof.
  intros st. exists [], (Ok tt). split; [|discriminate].
  cbn [map]. now rewrite add_events_nil.
Qed.

Lemma only_installs_raise (e : exn) : only_installs (raise e).
Proof.
  intros st. exists [], (Raise e). split; [|discriminate].
  cbn [map]. now rewrite add_events_nil.
Qed.

Lemma only_installs_getitem (v : value) (k : string)
    (rest : value -> M unit) :
  (forall x, only_installs (rest x)) ->
  only_installs (x <- lift (getitem v k) ;; rest x).
Proof.
  intros Hrest st. unfold bind, lift.
  destruct (getitem v k) as [x|e|c] eqn:E.
  - apply Hrest.
  - apply only_installs_raise.
  - now apply getitem_never_exits in E.
Qed.

Lemma only_installs_Package (name : value) : only_installs (Package name).
Proof.
  intros st. unfold Package. rewrite call_out_run.
  exists [name]. eexists. split; [reflexivity|].
  destruct (package_resource (trace st) name); discriminate.
Qed.

Lemma only_installs_seq (m : M unit) (k : M unit) :
  only_installs m -> only_installs k -> only_installs (m ;; k).
Proof.
  intros Hm Hk st. unfold bind.
  destruct (Hm st) as (names & r & -> & Hr).
  destruct r as [[]|e|c].
  - destruct (Hk (add_events (map EvPackage names) st))
      as (names' & r' & -> & Hr').
    exists (names ++ names')%list, r'. split; [|exact Hr'].
    now rewrite add_events_app, map_app.
  - exists names, (Raise e). split; [reflexivity|discriminate].
  - now destruct (Hr c).
Qed.

Lemma only_installs_for_each (packages : list value) :
  only_installs (for_each packages install_one).
Proof.
  induction packages as [|p rest IH]; cbn [for_each].
  - apply only_installs_ret.
  - apply only_installs_seq; [|exact IH].
    apply only_installs_getitem. intros x. apply only_installs_Package.
Qed.

(** Lines 128-133, the body of the [try] statement. *)
Lemma only_installs_try_body (cfg : dict) :
  only_installs
    (hostLevelParams <-
       lift (ConfigDictionary_getitem (Obj cfg) "hostLevelParams") ;;
     package_list_str <-
       lift (ConfigDictionary_getitem hostLevelParams "package_list") ;;
     match package_list_str with
     | Str s =>
         when (0 <? String.length s)%nat
           (package_list <- loads s ;;
            packages <- lift (py_iter package_list) ;;
            for_each packages install_one)
     | _ => ret tt
     end).
Proof.
  unfold ConfigDictionary_getitem.
  apply only_installs_getitem. intros hlp.
  apply only_installs_getitem. intros pls.
  destruct pls; try apply only_installs_ret.
  unfold when. destruct (0 <? String.length s)%nat;
    [|apply only_installs_ret].
  unfold loads. destruct (json_loads s) as [v|].
  - intros st. unfold bind at 1. unfold ret at 1.
    unfold bind, lift.
    destruct (py_iter v) as [items|e|c] eqn:E.
    + apply only_installs_for_each.
    + apply only_installs_raise.
    + destruct v; discriminate.
  - intros st. unfold bind, raise.
    exists [], (Raise ValueError). split; [|discriminate].
    cbn [map]. now rewrite add_events_nil.
Qed.

(** The calls of [install_packages], whatever the configuration, the
    decoder and the collaborators do. *)
Lemma install_packages_shape (env : environment) (st : state)
    (cfg : dict) :
  config st = Some cfg ->
  exists names tail r,
    install_packages env st =
      (r, add_events (EvInstallRepos cfg :: map EvPackage names ++ tail)
                     st) /\
    (tail = [] \/ tail = [EvRemoveRepos cfg]) /\
    (r = Ok tt -> tail = [EvRemoveRepos cfg]) /\
    (forall code, r <> Exit code).
Proof.
  intros Hcfg. unfold install_packages.
  unfold bind at 1. unfold get_config at 1. rewrite Hcfg.
  unfold bind at 1. unfold RepoInstaller_install_repos at 1.
  rewrite call_out_run.
  destruct (repo_install_repos (trace st) cfg) as [e|]; cbn [outcome_of].
  { exists [], [], (Raise e). cbn [map app].
    repeat split; auto; discriminate. }
  unfold bind at 1. unfold try_except at 1.
  destruct (only_installs_try_body cfg (add_events [EvInstallRepos cfg] st))
    as (names & r & -> & Hr).
  rewrite add_events_app.
  assert (Hclean :
    exists r',
      RepoInstaller_remove_repos cfg
        (add_events ([EvInstallRepos cfg] ++ map EvPackage names) st) =
      (r', add_events
             (EvInstallRepos cfg :: map EvPackage names ++
              [EvRemoveRepos cfg]) st) /\
      forall code, r' <> Exit code).
  { unfold RepoInstaller_remove_repos. rewrite call_out_run, add_events_app.
    eexists. split; [reflexivity|].
    destruct (repo_remove_repos _ cfg); discriminate. }
  destruct Hclean as (r' & Hclean & Hr').
  destruct r as [[]|e|c].
  - rewrite Hclean. exists names, [EvRemoveRepos cfg], r'.
    repeat split; auto.
  - destruct (exn_eqb e KeyError).
    + unfold ret at 1. rewrite Hclean.
      exists names, [EvRemoveRepos cfg], r'. repeat split; auto.
    + exists names, [], (Raise e). rewrite app_nil_r.
      repeat split; auto; discriminate.
  - now destruct (Hr c).
Qed.

(** With a non-empty package list text that decodes to something
    iterable, [install_packages] is the registration, the loop, and the
    cleanup unless the loop ended with an exception other than
    [KeyError]. *)
Lemma install_packages_loop (env : environment) (st : state) (cfg : dict)
    (s : string) (v : value) (items : list value) :
  config st = Some cfg ->
  package_list_lookup cfg = Ok (Str s) ->
  s <> "" ->
  json_loads s = Some v ->
  py_iter v = Ok items ->
  repo_install_repos (trace st) cfg = None ->
  install_packages env st =
  match for_each items install_one (add_events [EvInstallRepos cfg] st) with
  | (Ok _, st1) => RepoInstaller_remove_repos cfg st1
  | (Raise e, st1) =>
      if exn_eqb e KeyError then RepoInstaller_remove_repos cfg st1
      else (Raise e, st1)
  | (Exit code, st1) => (Exit code, st1)
  end.
Proof.
  intros Hcfg Hlook Hs Hloads Hiter Hrepo.
  unfold package_list_lookup in Hlook.
  destruct (ConfigDictionary_getitem (Obj cfg) "hostLevelParams")
    as [hlp| |] eqn:Hhlp; try discriminate.
  unfold install_packages.
  unfold bind at 1. unfold get_config at 1. rewrite Hcfg.
  unfold bind at 1. unfold RepoInstaller_install_repos at 1.
  rewrite call_out_run, Hrepo. cbn [outcome_of].
  unfold bind at 1. unfold try_except at 1.
  unfold bind at 1. unfold lift at 1. rewrite Hhlp.
  unfold bind at 1. unfold lift at 1. rewrite Hlook.
  destruct s as [|c s']; [congruence|].
  unfold when. cbn [String.length Nat.ltb Nat.leb].
  unfold bind at 1. unfold loads at 1. rewrite Hloads. unfold ret at 1.
  unfold bind at 1. unfold lift at 1. rewrite Hiter.
  destruct (for_each items install_one (add_events [EvInstallRepos cfg] st))
    as [[[]|e|c0] st1]; try reflexivity.
  destruct (exn_eqb e KeyError); reflexivity.
Qed.

(** The loop stops at a descriptor whose name cannot be taken. *)
Lemma for_each_head_raises (d : value) (post : list value) (e : exn)
    (st : state) :
  getitem d "name" = Raise e ->
  for_each (d :: post) install_one st = (Raise e, st).
Proof.
  intros Hd. cbn [for_each]. unfold bind, lift. now rewrite Hd.
Qed.

(** The loop stops at a package whose installation raises. *)
Lemma for_each_head_fails (d : value) (post : list value) (n : value)
    (e : exn) (st : state) :
  getitem d "name" = Ok n ->
  package_resource (trace st) n = Some e ->
  for_each (d :: post) install_one st =
  (Raise e, add_events [EvPackage n] st).
Proof.
  intros Hd He. cbn [for_each]. unfold bind at 1. unfold bind at 1.
  unfold lift at 1. rewrite Hd. unfold Package.
  now rewrite call_out_run, He.
Qed.

(** X7.  Before [execute] has assigned [Script.config], the attribute does
    not exist: [install_packages] raises [AttributeError] at once, without
    calling any collaborator. *)
Theorem X7_install_before_configuration (env : environment) (st : state) :
  config st = None ->
  install_packages env st = (Raise AttributeError, st) /\
  install env st = (Raise AttributeError, st).
Proof.
  intros Hcfg. unfold install, install_packages, bind, get_config.
  now rewrite Hcfg.
Qed.

(** X8.  Whatever the configuration holds, the decoder returns and the
    collaborators do, [install_packages] with a loaded configuration never
    calls [sys.exit], changes nothing of the process state but the record
    of calls, and makes its calls in this order: the registration first,
    then installations only, then at most one cleanup, which is the last
    call; it returns normally only after the cleanup has been called. *)
Theorem X8_install_packages_call_order (env : environment) (st : state)
    (cfg : dict) :
  config st = Some cfg ->
  exists names tail r st',
    install_packages env st = (r, st') /\
    trace st' =
      (trace st ++ EvInstallRepos cfg :: map EvPackage names ++ tail)%list /\
    (tail = [] \/ tail = [EvRemoveRepos cfg]) /\
    (r = Ok tt -> tail = [EvRemoveRepos cfg]) /\
    (forall code, r <> Exit code) /\
    fs st' = fs st /\ config st' = config st /\
    stroutfile st' = stroutfile st /\
    structuredOut st' = structuredOut st /\
    stdout st' = stdout st /\ stderr st' = stderr st.
Proof.
  intros Hcfg.
  destruct (install_packages_shape env st cfg Hcfg)
    as (names & tail & r & Hrun & Htail & Hok & Hexit).
  exists names, tail, r. eexists. split; [exact Hrun|].
  cbn [add_events fs config stroutfile structuredOut stdout stderr trace].
  repeat split; auto.
Qed.

(** X9.  A [package_list] that is not a string (a number, or a list that
    was not encoded as text) is passed over by the test of line 129:
    nothing is decoded or installed, the registration is followed by the
    cleanup, and the outcome is the one of the cleanup. *)
Theorem X9_package_list_not_a_string (env : environment) (st : state)
    (cfg : dict) (v : value) :
  config st = Some cfg ->
  package_list_lookup cfg = Ok v ->
  (forall s, v <> Str s) ->
  repo_install_repos (trace st) cfg = None ->
  install_packages env st =
  (outcome_of (repo_remove_repos (trace st ++ [EvInstallRepos cfg]) cfg),
   add_events [EvInstallRepos cfg; EvRemoveRepos cfg] st).
Proof.
  intros Hcfg Hlook Hv Hrepo. unfold package_list_lookup in Hlook.
  destruct (ConfigDictionary_getitem (Obj cfg) "hostLevelParams")
    as [hlp| |] eqn:Hhlp; try discriminate.
  script_steps. rewrite Hcfg, call_out_run, Hrepo. cbn [outcome_of].
  rewrite Hhlp, Hlook.
  destruct v; try (rewrite call_out_run, add_events_app; reflexivity).
  now destruct (Hv s).
Qed.

(** X10.  When every descriptor of the decoded list carries a name and
    every installation returns, all the packages are installed, in the
    order of the list, between the registration and the cleanup. *)
Theorem X10_all_packages_in_order (env : environment) (st : state)
    (cfg : dict) (s : string) (packages names : list value) :
  config st = Some cfg ->
  package_list_lookup cfg = Ok (Str s) ->
  s <> "" ->
  json_loads s = Some (Arr packages) ->
  Forall2 (fun p n => getitem p "name" = Ok n) packages names ->
  repo_install_repos (trace st) cfg = None ->
  (forall h n, In n names -> package_resource h n = None) ->
  install_packages env st =
  (outcome_of
     (repo_remove_repos
        (trace st ++ EvInstallRepos cfg :: map EvPackage names) cfg),
   add_events
     (EvInstallRepos cfg :: map EvPackage names ++ [EvRemoveRepos cfg]) st).
Proof.
  intros Hcfg Hlook Hs Hloads Hnames Hrepo Hpkg.
  apply (install_packages_named_prefix env st cfg s packages names []);
    auto.
  now rewrite app_nil_r.
Qed.

(** X11.  There is no rollback: when the installation of a package raises
    anything but [KeyError], [install_packages] ends with that exception,
    the packages after it are not installed, and the cleanup is not
    called, so the repositories stay registered. *)
Theorem X11_failed_installation_skips_cleanup (env : environment)
    (st : state) (cfg : dict) (s : string) (pre post names : list value)
    (d n : value) (e : exn) :
  config st = Some cfg ->
  package_list_lookup cfg = Ok (Str s) ->
  s <> "" ->
  json_loads s = Some (Arr (pre ++ d :: post)) ->
  Forall2 (fun p n => getitem p "name" = Ok n) pre names ->
  getitem d "name" = Ok n ->
  repo_install_repos (trace st) cfg = None ->
  (forall h n, In n names -> package_resource h n = None) ->
  package_resource
    (trace st ++ EvInstallRepos cfg :: map EvPackage names) n = Some e ->
  e <> KeyError ->
  install_packages env st =
  (Raise e,
   add_events (EvInstallRepos cfg :: map EvPackage names ++ [EvPackage n])
              st).
Proof.
  intros Hcfg Hlook Hs Hloads Hnames Hd Hrepo Hpkg Hfail He.
  rewrite (install_packages_loop env st cfg s _ (pre ++ d :: post)
             Hcfg Hlook Hs Hloads eq_refl Hrepo).
  rewrite (for_each_named pre (d :: post) names _ Hnames Hpkg).
  rewrite add_events_app.
  rewrite (for_each_head_fails d post n e
             (add_events ([EvInstallRepos cfg] ++ map EvPackage names) st)
             Hd Hfail), add_events_app.
  destruct e; try contradiction; reflexivity.
Qed.

(** X12.  The [except KeyError] clause also covers the package resource:
    a [KeyError] raised while a package is installed is absorbed like a
    missing key, the packages after it are skipped without a trace, and
    the cleanup runs and decides the outcome. *)
Theorem X12_KeyError_of_package_is_absorbed (env : environment)
    (st : state) (cfg : dict) (s : string) (pre post names : list value)
    (d n : value) :
  config st = Some cfg ->
  package_list_lookup cfg = Ok (Str s) ->
  s <> "" ->
  json_loads s = Some (Arr (pre ++ d :: post)) ->
  Forall2 (fun p n => getitem p "name" = Ok n) pre names ->
  getitem d "name" = Ok n ->
  repo_install_repos (trace st) cfg = None ->
  (forall h n, In n names -> package_resource h n = None) ->
  package_resource
    (trace st ++ EvInstallRepos cfg :: map EvPackage names) n
    = Some KeyError ->
  install_packages env st =
  (outcome_of
     (repo_remove_repos
        (trace st ++ EvInstallRepos cfg :: map EvPackage names ++
         [EvPackage n]) cfg),
   add_events
     (EvInstallRepos cfg :: map EvPackage names ++
      [EvPackage n; EvRemoveRepos cfg]) st).
Proof.
  intros Hcfg Hlook Hs Hloads Hnames Hd Hrepo Hpkg Hfail.
  rewrite (install_packages_loop env st cfg s _ (pre ++ d :: post)
             Hcfg Hlook Hs Hloads eq_refl Hrepo).
  rewrite (for_each_named pre (d :: post) names _ Hnames Hpkg).
  rewrite add_events_app.
  rewrite (for_each_head_fails d post n KeyError
             (add_events ([EvInstallRepos cfg] ++ map EvPackage names) st)
             Hd Hfail), add_events_app.
  cbn [exn_eqb]. unfold RepoInstaller_remove_repos.
  rewrite call_out_run, add_events_app.
  cbn [add_events trace]. rewrite <- !app_assoc. reflexivity.
Qed.

(** X13.  When the package list text is valid JSON that is not a list
    (nor an empty object or an empty string, over which the loop does not
    run), the loop or its first lookup of [name] raises [TypeError], which
    [except KeyError] lets through: nothing is installed and the cleanup is
    not called. *)
Theorem X13_package_list_not_a_list (env : environment) (st : state)
    (cfg : dict) (s : string) (v : value) :
  config st = Some cfg ->
  package_list_lookup cfg = Ok (Str s) ->
  s <> "" ->
  json_loads s = Some v ->
  (forall items, v <> Arr items) ->
  v <> Obj [] ->
  v <> Str "" ->
  repo_install_repos (trace st) cfg = None ->
  install_packages env st =
  (Raise TypeError, add_events [EvInstallRepos cfg] st).
Proof.
  intros Hcfg Hlook Hs Hloads Hlist Hobj Hstr Hrepo.
  destruct (py_iter v) as [items|e|c] eqn:Hiter.
  - rewrite (install_packages_loop env st cfg s v items
               Hcfg Hlook Hs Hloads Hiter Hrepo).
    destruct v; try discriminate.
    + destruct s0 as [|c0 s0]; [congruence|].
      cbn in Hiter. injection Hiter as <-.
      now rewrite (for_each_head_raises _ _ TypeError).
    + now destruct (Hlist items0).
    + destruct members as [|[k x] members]; [congruence|].
      cbn in Hiter. injection Hiter as <-.
      now rewrite (for_each_head_raises _ _ TypeError).
  - unfold package_list_lookup in Hlook.
    destruct (ConfigDictionary_getitem (Obj cfg) "hostLevelParams")
      as [hlp| |] eqn:Hhlp; try discriminate.
    script_steps. rewrite Hcfg, call_out_run, Hrepo. cbn [outcome_of].
    rewrite Hhlp, Hlook.
    destruct s as [|c s']; [congruence|]. cbn [String.length Nat.ltb Nat.leb].
    rewrite Hloads, Hiter.
    destruct v; try discriminate; cbn in Hiter; injection Hiter as <-;
      reflexivity.
  - destruct v; discriminate.
Qed.

(** X14.  A list element that is not a mapping, such as a bare package
    name, makes [package['name']] raise [TypeError]: the named descriptors
    before it have been installed, nothing after it is, and the cleanup is
    not called. *)
Theorem X14_bare_name_in_package_list (env : environment) (st : state)
    (cfg : dict) (s : string) (pre post names : list value) (d : value) :
  config st = Some cfg ->
  package_list_lookup cfg = Ok (Str s) ->
  s <> "" ->
  json_loads s = Some (Arr (pre ++ d :: post)) ->
  Forall2 (fun p n => getitem p "name" = Ok n) pre names ->
  (forall m, d <> Obj m) ->
  repo_install_repos (trace st) cfg = None ->
  (forall h n, In n names -> package_resource h n = None) ->
  install_packages env st =
  (Raise TypeError,
   add_events (EvInstallRepos cfg :: map EvPackage names) st).
Proof.
  intros Hcfg Hlook Hs Hloads Hnames Hd Hrepo Hpkg.
  rewrite (install_packages_loop env st cfg s _ (pre ++ d :: post)
             Hcfg Hlook Hs Hloads eq_refl Hrepo).
  rewrite (for_each_named pre (d :: post) names _ Hnames Hpkg).
  rewrite add_events_app.
  assert (Hget : getitem d "name" = Raise TypeError).
  { destruct d; try reflexivity. now destruct (Hd members). }
  now rewrite (for_each_head_raises d post TypeError _ Hget).
Qed.

End InstallerExtras.

Lemma X7_witness :
  install_packages (codec := PyJson.codec) (world := quiet_world) work_dir
    (initial_state []) = (Raise AttributeError, initial_state []).
Proof.
  apply (X7_install_before_configuration (codec := PyJson.codec)
           (world := quiet_world) work_dir (initial_state [])).
  reflexivity.
Defined.

Lemma X8_witness :
  exists names tail r st',
    install_packages (codec := PyJson.codec) (world := bar_fails Fail)
      work_dir (configured_state (config_with_packages foo_bar_text))
    = (r, st') /\
    trace st' =
      (EvInstallRepos (config_with_packages foo_bar_text)
         :: map EvPackage names ++ tail)%list /\
    fs st' = [].
Proof.
  destruct (X8_install_packages_call_order (codec := PyJson.codec)
              (world := bar_fails Fail) work_dir
              (configured_state (config_with_packages foo_bar_text))
              (config_with_packages foo_bar_text) eq_refl)
    as (names & tail & r & st' & Hrun & Htrace & _ & _ & _ & Hfs & _).
  exists names, tail, r, st'. repeat split; assumption.
Defined.

Lemma X9_witness :
  install_packages (codec := PyJson.codec) (world := quiet_world) work_dir
    (configured_state numeric_list_config) =
  (Ok tt,
   add_events [EvInstallRepos numeric_list_config;
               EvRemoveRepos numeric_list_config]
     (configured_state numeric_list_config)).
Proof.
  apply (X9_package_list_not_a_string (codec := PyJson.codec)
           (world := quiet_world) work_dir
           (configured_state numeric_list_config) numeric_list_config
           (Int 7)).
  - reflexivity.
  - reflexivity.
  - discriminate.
  - reflexivity.
Defined.

Lemma X10_witness :
  install_packages (codec := PyJson.codec) (world := quiet_world) work_dir
    (configured_state (config_with_packages foo_bar_text)) =
  (Ok tt,
   add_events
     [EvInstallRepos (config_with_packages foo_bar_text);
      EvPackage (Str "foo"); EvPackage (Str "bar");
      EvRemoveRepos (config_with_packages foo_bar_text)]
     (configured_state (config_with_packages foo_bar_text))).
Proof.
  apply (X10_all_packages_in_order (codec := PyJson.codec)
           (world := quiet_world) work_dir
           (configured_state (config_with_packages foo_bar_text))
           (config_with_packages foo_bar_text) foo_bar_text
           [Obj [("name", Str "foo")]; Obj [("name", Str "bar")]]
           [Str "foo"; Str "bar"]).
  - reflexivity.
  - reflexivity.
  - vm_compute. discriminate.
  - vm_compute. reflexivity.
  - repeat constructor.
  - reflexivity.
  - reflexivity.
Defined.

Lemma X11_witness :
  install_packages (codec := PyJson.codec) (world := bar_fails Fail) work_dir
    (configured_state (config_with_packages foo_bar_text)) =
  (Raise Fail,
   add_events
     [EvInstallRepos (config_with_packages foo_bar_text);
      EvPackage (Str "foo"); EvPackage (Str "bar")]
     (configured_state (config_with_packages foo_bar_text))).
Proof.
  apply (X11_failed_installation_skips_cleanup (codec := PyJson.codec)
           (world := bar_fails Fail) work_dir
           (configured_state (config_with_packages foo_bar_text))
           (config_with_packages foo_bar_text) foo_bar_text
           [Obj [("name", Str "foo")]] [] [Str "foo"]
           (Obj [("name", Str "bar")]) (Str "bar") Fail).
  - reflexivity.
  - reflexivity.
  - vm_compute. discriminate.
  - vm_compute. reflexivity.
  - repeat constructor.
  - reflexivity.
  - reflexivity.
  - intros h n [<- | []]. reflexivity.
  - reflexivity.
  - discriminate.
Defined.

Lemma X12_witness :
  install_packages (codec := PyJson.codec) (world := bar_fails KeyError)
    work_dir (configured_state (config_with_packages foo_bar_text)) =
  (Ok tt,
   add_events
     [EvInstallRepos (config_with_packages foo_bar_text);
      EvPackage (Str "foo"); EvPackage (Str "bar");
      EvRemoveRepos (config_with_packages foo_bar_text)]
     (configured_state (config_with_packages foo_bar_text))).
Proof.
  apply (X12_KeyError_of_package_is_absorbed (codec := PyJson.codec)
           (world := bar_fails KeyError) work_dir
           (configured_state (config_with_packages foo_bar_text))
           (config_with_packages foo_bar_text) foo_bar_text
           [Obj [("name", Str "foo")]] [] [Str "foo"]
           (Obj [("name", Str "bar")]) (Str "bar")).
  - reflexivity.
  - reflexivity.
  - vm_compute. discriminate.
  - vm_compute. reflexivity.
  - repeat constructor.
  - reflexivity.
  - reflexivity.
  - intros h n [<- | []]. reflexivity.
  - reflexivity.
Defined.

Lemma X13_witness :
  install_packages (codec := PyJson.codec) (world := quiet_world) work_dir
    (configured_state (config_with_packages "7")) =
  (Raise TypeError,
   add_events [EvInstallRepos (config_with_packages "7")]
     (configured_state (config_with_packages "7"))).
Proof.
  apply (X13_package_list_not_a_list (codec := PyJson.codec)
           (world := quiet_world) work_dir
           (configured_state (config_with_packages "7"))
           (config_with_packages "7") "7" (Int 7)).
  - reflexivity.
  - reflexivity.
  - discriminate.
  - vm_compute. reflexivity.
  - discriminate.
  - discriminate.
  - discriminate.
  - reflexivity.
Defined.

Lemma X14_witness :
  install_packages (codec := PyJson.codec) (world := quiet_world) work_dir
    (configured_state (config_with_packages bare_names_text)) =
  (Raise TypeError,
   add_events [EvInstallRepos (config_with_packages bare_names_text)]
     (configured_state (config_with_packages bare_names_text))).
Proof.
  apply (X14_bare_name_in_package_list (codec := PyJson.codec)
           (world := quiet_world) work_dir
           (configured_state (config_with_packages bare_names_text))
           (config_with_packages bare_names_text) bare_names_text
           [] [] [] (Str "foo")).
  - reflexivity.
  - reflexivity.
  - vm_compute. discriminate.
  - vm_compute. reflexivity.
  - constructor.
  - discriminate.
  - reflexivity.
  - intros h n [].
Defined.

(** ** The execution envelope, in general *)

Lemma lower_ascii_idempotent (c : ascii) :
  lower_ascii (lower_ascii c) = lower_ascii c.
Proof.
  destruct c as [[] [] [] [] [] [] [] []]; reflexivity.
Qed.

Lemma lower_idempotent (s : string) : lower (lower s) = lower s.
Proof.
  induction s as [|c rest IH]; cbn; [reflexivity|].
  now rewrite lower_ascii_idempotent, IH.
Qed.

Lemma existsb_eqb_false (x : string) (l : list string) :
  ~ In x l -> existsb (String.eqb x) l = false.
Proof.
  intros Hnot. destruct (existsb (String.eqb x) l) eqn:E; [|reflexivity].
  apply existsb_exists in E. destruct E as (y & Hy & Heq).
  apply String.eqb_eq in Heq. subst y. contradiction.
Qed.




Section EnvelopeExtras.

Context {codec : Codec} {world : World}.

(** A method of the script under a name other than [stroutfile] is what
    [getattr] finds, whatever [Script] has under that name. *)
Lemma own_attribute_resolves (self : script_class) (name : string)
    (a : attribute) :
  name <> "stroutfile" ->
  find_attribute name self = Some a ->
  find_attribute name (instance_attributes ++ self ++ Script_attributes)
    = Some a.
Proof.
  intros Hname Hfind.
  rewrite find_attribute_past_instance by (now apply String.eqb_neq).
  now rewrite find_attribute_app, Hfind.
Qed.

(** An attribute that is no method stays none when the instance is
    searched first: what the instance holds is no method either. *)
Lemma data_attribute_resolves (self : script_class) (name : string) :
  find_attribute name (self ++ Script_attributes) = Some Data ->
  find_attribute name (instance_attributes ++ self ++ Script_attributes)
    = Some Data.
Proof.
  intros Hfind. destruct (String.eqb name "stroutfile") eqn:E.
  - cbn. now rewrite E.
  - now rewrite find_attribute_past_instance.
Qed.

(** The call of a method inside the environment, and what [execute] makes
    of the way it ends. *)
Lemma execute_method (self : script_class) (argv : list string)
    (st : state) (text : string) (document : value) (cfg : dict)
    (h : environment -> M unit) (r : outcome unit) (st1 : state) :
  5 <= List.length argv ->
  read_text (nth 2 argv "") (fs st) = Some text ->
  json_loads text = Some document ->
  ConfigDictionary document = Ok cfg ->
  find_attribute (lower (nth 1 argv ""))
    (instance_attributes ++ self ++ Script_attributes) = Some (Method h) ->
  h (nth 3 argv "")
    (add_events [EvEnvEnter (nth 3 argv "");
                 EvCall (lower (nth 1 argv "")) (nth 3 argv "")]
       (loaded_state (nth 4 argv "") cfg st)) = (r, st1) ->
  execute self argv st =
  match r with
  | Raise Fail =>
      (Exit 1,
       add_log (LogException ("Got exception while executing method '"
                                ++ lower (nth 1 argv "") ++ "':"))
               (add_events [EvEnvExit (nth 3 argv "")] st1))
  | _ => (r, add_events [EvEnvExit (nth 3 argv "")] st1)
  end.
Proof.
  intros Hlen Hread Hloads Hcfg Hfind Hh.
  rewrite (execute_known_name self argv st text document cfg _
             Hlen Hread Hloads Hcfg Hfind).
  unfold try_except, with_Environment, call.
  rewrite emit_run. cbv beta iota.
  unfold bind at 1. rewrite emit_run. cbv beta iota.
  rewrite add_events_app. cbn [app]. rewrite Hh.
  rewrite emit_run. cbn [snd].
  destruct r as [[]|[]|c]; reflexivity.
Qed.

(** X15.  Arguments after the fourth are not looked at: with at least four
    arguments after the program name, any further ones change nothing. *)
Theorem X15_further_arguments_are_ignored (self : script_class)
    (argv extra : list string) (st : state) :
  5 <= List.length argv ->
  execute self (argv ++ extra) st = execute self argv st.
Proof.
  intros Hlen. unfold execute.
  assert (Hlen' : 5 <= List.length (argv ++ extra))
    by (rewrite length_app; lia).
  rewrite (enough_arguments _ Hlen), (enough_arguments _ Hlen').
  rewrite !app_nth1 by lia. reflexivity.
Qed.

(** X16.  The command name counts in lower case only: [INSTALL],
    [Install] and [install] are one command, with the same outcome, the
    same messages and the same calls. *)
Theorem X16_command_name_is_case_insensitive (self : script_class)
    (program command : string) (arguments : list string) (st : state) :
  execute self (program :: command :: arguments) st =
  execute self (program :: lower command :: arguments) st.
Proof.
  unfold execute. cbn [nth List.length].
  now rewrite lower_idempotent.
Qed.


(** X18.  A command whose lowered name is no attribute of the script
    instance is refused before anything is acquired or called: one error
    line naming the program and the lowered command goes to both channels,
    the process exits with status 1, and the only other changes are the
    stored output path and configuration. *)
Theorem X18_unknown_command_is_refused (self : script_class)
    (argv : list string) (st : state) (text : string) (document : value)
    (cfg : dict) :
  5 <= List.length argv ->
  read_text (nth 2 argv "") (fs st) = Some text ->
  json_loads text = Some document ->
  ConfigDictionary document = Ok cfg ->
  ~ In (lower (nth 1 argv "")) (dir self) ->
  exists st',
    execute self argv st = (Exit 1, st') /\
    stderr st' =
      (stderr st ++
       [LogError ("Script " ++ nth 0 argv "" ++ " has not method '"
                    ++ lower (nth 1 argv "") ++ "'")])%list /\
    stdout st' =
      (stdout st ++
       [LogError ("Script " ++ nth 0 argv "" ++ " has not method '"
                    ++ lower (nth 1 argv "") ++ "'")])%list /\
    trace st' = trace st /\
    fs st' = fs st /\
    structuredOut st' = structuredOut st /\
    config st' = Some cfg /\
    stroutfile st' = Some (nth 4 argv "").
Proof.
  intros Hlen Hread Hloads Hcfg Hdir.
  rewrite (execute_unknown_name self argv st text document cfg
             Hlen Hread Hloads Hcfg (existsb_eqb_false _ _ Hdir)).
  eexists. split; [reflexivity|]. repeat split.
Qed.

(** X19.  How a handler of the script ends decides how the process ends.
    A method the script defines under the command name is the one that is
    called, whatever [Script] provides under that name (the one name a
    method cannot answer to is [stroutfile], which line 77 has bound to the
    output path on the instance).  It runs on the state in which the
    configuration and the output path are stored; the environment is
    released on every way out; [Fail] is logged with the command name and
    becomes exit status 1; any other exception and any [sys.exit] of the
    handler pass through unchanged.  The status is 0 only when the handler
    returned, or itself exited with a code whose low eight bits are 0. *)
Theorem X19_handler_outcome_decides (self : script_class)
    (argv : list string) (st : state) (text : string) (document : value)
    (cfg : dict) (h : environment -> M unit) (r : outcome unit)
    (st1 : state) :
  5 <= List.length argv ->
  read_text (nth 2 argv "") (fs st) = Some text ->
  json_loads text = Some document ->
  ConfigDictionary document = Ok cfg ->
  lower (nth 1 argv "") <> "stroutfile" ->
  find_attribute (lower (nth 1 argv "")) self = Some (Method h) ->
  h (nth 3 argv "")
    (add_events [EvEnvEnter (nth 3 argv "");
                 EvCall (lower (nth 1 argv "")) (nth 3 argv "")]
       (loaded_state (nth 4 argv "") cfg st)) = (r, st1) ->
  execute self argv st =
    match r with
    | Raise Fail =>
        (Exit 1,
         add_log (LogException ("Got exception while executing method '"
                                  ++ lower (nth 1 argv "") ++ "':"))
                 (add_events [EvEnvExit (nth 3 argv "")] st1))
    | _ => (r, add_events [EvEnvExit (nth 3 argv "")] st1)
    end /\
  (exit_status (fst (execute self argv st)) = 0%Z ->
   r = Ok tt \/ exists code, r = Exit code /\ (code mod 256 = 0)%Z).
Proof.
  intros Hlen Hread Hloads Hcfg Hname Hfind Hh.
  rewrite (execute_method self argv st text document cfg h r st1
             Hlen Hread Hloads Hcfg
             (own_attribute_resolves self _ _ Hname Hfind) Hh).
  split; [reflexivity|].
  destruct r as [[]|[]|c]; cbn [fst exit_status]; auto; try discriminate.
  intros Hc. right. now exists c.
Qed.

(** X20.  A command that names an attribute which is not a method passes
    the test of line 87 and is called all the same: the environment is
    acquired and released around a [TypeError] that nothing catches, and
    no line is logged. *)
Theorem X20_data_attribute_is_called (self : script_class)
    (argv : list string) (st : state) (text : string) (document : value)
    (cfg : dict) :
  5 <= List.length argv ->
  read_text (nth 2 argv "") (fs st) = Some text ->
  json_loads text = Some document ->
  ConfigDictionary document = Ok cfg ->
  find_attribute (lower (nth 1 argv "")) (self ++ Script_attributes)
    = Some Data ->
  execute self argv st =
  (Raise TypeError,
   add_events [EvEnvEnter (nth 3 argv ""); EvEnvExit (nth 3 argv "")]
     (loaded_state (nth 4 argv "") cfg st)).
Proof.
  intros Hlen Hread Hloads Hcfg Hfind.
  rewrite (execute_known_name self argv st text document cfg _
             Hlen Hread Hloads Hcfg (data_attribute_resolves self _ Hfind)).
  unfold try_except, with_Environment, call, raise.
  rewrite emit_run. cbv beta iota. rewrite emit_run. cbn [snd exn_eqb].
  now rewrite add_events_app.
Qed.

(** X21.  [fail_with_error] inside a handler ends the process with status
    1 through [sys.exit]: for a script that leaves [fail_with_error] as
    [Script] has it, and a method of its own that calls it, the message
    goes to stdout and stderr with the prefix [Error: ], the environment is
    released, and [execute] logs nothing of its own, [SystemExit] being no
    [Fail]. *)
Theorem X21_fail_with_error_in_a_handler (self : script_class)
    (argv : list string) (st : state) (text : string) (document : value)
    (cfg : dict) (message : string) :
  5 <= List.length argv ->
  read_text (nth 2 argv "") (fs st) = Some text ->
  json_loads text = Some document ->
  ConfigDictionary document = Ok cfg ->
  lower (nth 1 argv "") <> "stroutfile" ->
  find_attribute (lower (nth 1 argv "")) self
    = Some (Method (fun _ => fail_with_error message)) ->
  defines self "fail_with_error" = false ->
  exists st',
    execute self argv st = (Exit 1, st') /\
    exit_status (fst (execute self argv st)) = 1%Z /\
    stdout st' = (stdout st ++ [Printed ("Error: " ++ message)])%list /\
    stderr st' = (stderr st ++ [Printed ("Error: " ++ message)])%list /\
    trace st' =
      (trace st ++ [EvEnvEnter (nth 3 argv "");
                    EvCall (lower (nth 1 argv "")) (nth 3 argv "");
                    EvEnvExit (nth 3 argv "")])%list.
Proof.
  intros Hlen Hread Hloads Hcfg Hname Hfind _.
  rewrite (execute_method self argv st text document cfg _ _ _
             Hlen Hread Hloads Hcfg
             (own_attribute_resolves self _ _ Hname Hfind) eq_refl).
  eexists. split; [reflexivity|].
  cbn [add_events loaded_state fs config stroutfile structuredOut stdout
       stderr trace fst].
  repeat split. now rewrite <- app_assoc.
Qed.

(** X23.  The [install] command from end to end, for a script that leaves
    [install], [install_packages] and [get_config] as [Script] has them:
    with a package list whose descriptors all carry a name and
    collaborators that return, the process returns with status 0 and its
    calls are, in order, entering the environment, the handler, the
    registration, the packages of the list, the cleanup, and leaving the
    environment. *)
Theorem X23_install_command_succeeds (self : script_class)
    (argv : list string) (st : state) (text : string) (document : value)
    (cfg : dict) (s : string) (packages names : list value) :
  5 <= List.length argv ->
  lower (nth 1 argv "") = "install" ->
  defines self "install" = false ->
  defines self "install_packages" = false ->
  defines self "get_config" = false ->
  read_text (nth 2 argv "") (fs st) = Some text ->
  json_loads text = Some document ->
  ConfigDictionary document = Ok cfg ->
  package_list_lookup cfg = Ok (Str s) ->
  s <> "" ->
  json_loads s = Some (Arr packages) ->
  Forall2 (fun p n => getitem p "name" = Ok n) packages names ->
  (forall h, repo_install_repos h cfg = None) ->
  (forall h n, In n names -> package_resource h n = None) ->
  (forall h, repo_remove_repos h cfg = None) ->
  execute self argv st =
  (Ok tt,
   add_events
     ([EvEnvEnter (nth 3 argv ""); EvCall "install" (nth 3 argv "");
       EvInstallRepos cfg] ++ map EvPackage names ++
      [EvRemoveRepos cfg; EvEnvExit (nth 3 argv "")])
     (loaded_state (nth 4 argv "") cfg st)) /\
  exit_status (fst (execute self argv st)) = 0%Z.
Proof.
  intros Hlen Hcmd Hinstall _ _ Hread Hloads Hcfg Hlook Hs Hlist Hnames
    Hreg Hpkg Hclean.
  assert (Hfind :
    find_attribute (lower (nth 1 argv ""))
      (instance_attributes ++ self ++ Script_attributes)
    = Some (Method install)).
  { rewrite Hcmd, find_attribute_past_instance by reflexivity.
    now rewrite (find_attribute_undefined self "install" _ Hinstall). }
  assert (Hrun :
    install (nth 3 argv "")
      (add_events [EvEnvEnter (nth 3 argv "");
                   EvCall (lower (nth 1 argv "")) (nth 3 argv "")]
         (loaded_state (nth 4 argv "") cfg st)) =
    (Ok tt,
     add_events
       (EvInstallRepos cfg :: map EvPackage names ++ [EvRemoveRepos cfg])
       (add_events [EvEnvEnter (nth 3 argv "");
                    EvCall (lower (nth 1 argv "")) (nth 3 argv "")]
          (loaded_state (nth 4 argv "") cfg st)))).
  { unfold install.
    rewrite (install_packages_named_prefix _ _ cfg s packages names []);
      auto.
    - now rewrite Hclean.
    - now rewrite app_nil_r. }
  rewrite (execute_method self argv st text document cfg install _ _
             Hlen Hread Hloads Hcfg Hfind Hrun).
  rewrite !add_events_app, Hcmd. cbn [fst exit_status].
  split; [|reflexivity].
  f_equal. f_equal. cbn [app]. now rewrite <- app_assoc.
Qed.

(** X24.  What a handler reports lands in the file named by the fourth
    argument: for a script that leaves [put_structured_out] as [Script]
    has it, with that path writable, a method of the script that reports
    some fields and returns leaves there the snapshot of the mapping
    updated by them, and the process returns with status 0. *)
Theorem X24_report_lands_at_fourth_argument (self : script_class)
    (argv : list string) (st : state) (text : string) (document : value)
    (cfg : dict) (sout : dict) :
  5 <= List.length argv ->
  read_text (nth 2 argv "") (fs st) = Some text ->
  json_loads text = Some document ->
  ConfigDictionary document = Ok cfg ->
  lower (nth 1 argv "") <> "stroutfile" ->
  find_attribute (lower (nth 1 argv "")) self
    = Some (Method (fun _ => put_structured_out sout)) ->
  defines self "put_structured_out" = false ->
  writable (nth 4 argv "") (fs st) = true ->
  exists st',
    execute self argv st = (Ok tt, st') /\
    structuredOut st' = dict_update (structuredOut st) sout /\
    file_content (nth 4 argv "") (fs st') =
      Some (persisted_text (dict_update (structuredOut st) sout)).
Proof.
  intros Hlen Hread Hloads Hcfg Hname Hfind _ Hw.
  destruct (write_text_writable (nth 4 argv "")
              (persisted_text (dict_update (structuredOut st) sout))
              (fs st) Hw) as [files' Hfiles].
  rewrite (execute_method self argv st text document cfg _ (Ok tt)
             (mkState files' (Some cfg) (Some (nth 4 argv ""))
                (dict_update (structuredOut st) sout) (stdout st)
                (stderr st)
                (trace st ++ [EvEnvEnter (nth 3 argv "");
                              EvCall (lower (nth 1 argv ""))
                                     (nth 3 argv "")]))
             Hlen Hread Hloads Hcfg
             (own_attribute_resolves self _ _ Hname Hfind)).
  - eexists. split; [reflexivity|].
    cbn [add_events fs structuredOut]. split; [reflexivity|].
    now apply write_text_content in Hfiles.
  - rewrite put_structured_out_run.
    cbn [add_events loaded_state fs config stroutfile structuredOut stdout
         stderr trace].
    now rewrite Hfiles.
Qed.

End EnvelopeExtras.

Lemma X15_witness :
  execute (codec := PyJson.codec) (world := quiet_world) []
    (argv_for "install" ++ ["--verbose"; "7"])
    (initial_state packages_config_files) =
  execute (codec := PyJson.codec) (world := quiet_world) []
    (argv_for "install") (initial_state packages_config_files).
Proof.
  apply (X15_further_arguments_are_ignored (codec := PyJson.codec)
           (world := quiet_world)).
  cbn. lia.
Defined.


Lemma X18_witness :
  exists st',
    execute (codec := PyJson.codec) (world := quiet_world) capital_script
      (argv_for "Start") (initial_state empty_config_files) = (Exit 1, st') /\
    stderr st' = [LogError "Script script.py has not method 'start'"] /\
    trace st' = [].
Proof.
  destruct (X18_unknown_command_is_refused (codec := PyJson.codec)
              (world := quiet_world) capital_script (argv_for "Start")
              (initial_state empty_config_files) "{}" (Obj []) [])
    as (st' & Hrun & Herr & _ & Htrace & _).
  - cbn. lia.
  - reflexivity.
  - reflexivity.
  - reflexivity.
  - intros Hin.
    assert (H : existsb (String.eqb "start")
                  (dir (codec := PyJson.codec) (world := quiet_world)
                       capital_script) = true).
    { apply existsb_exists. exists "start".
      split; [exact Hin|apply String.eqb_refl]. }
    vm_compute in H. discriminate.
  - exists st'. repeat split; assumption.
Defined.

Lemma X19_witness :
  fst (execute (codec := PyJson.codec) (world := quiet_world) status_script
         (argv_for "STATUS") (initial_state empty_config_files)) = Ok tt.
Proof.
  destruct (X19_handler_outcome_decides (codec := PyJson.codec)
              (world := quiet_world) status_script (argv_for "STATUS")
              (initial_state empty_config_files) "{}" (Obj []) []
              (fun _ => put_structured_out (codec := PyJson.codec)
                          [("state", Str "up")])
              _ _
              ltac:(cbn; lia) eq_refl eq_refl eq_refl
              ltac:(vm_compute; discriminate) eq_refl
              (surjective_pairing _)) as [Hrun _].
  rewrite Hrun. vm_compute. reflexivity.
Defined.

Lemma X20_witness :
  execute (codec := PyJson.codec) (world := quiet_world) []
    (argv_for "stroutfile") (initial_state empty_config_files) =
  (Raise TypeError,
   add_events [EvEnvEnter work_dir; EvEnvExit work_dir]
     (loaded_state out_path [] (initial_state empty_config_files))).
Proof.
  apply (X20_data_attribute_is_called (codec := PyJson.codec)
           (world := quiet_world) [] (argv_for "stroutfile")
           (initial_state empty_config_files) "{}" (Obj []) []).
  - cbn. lia.
  - reflexivity.
  - reflexivity.
  - reflexivity.
  - reflexivity.
Defined.

Lemma X21_witness :
  exists st',
    execute (codec := PyJson.codec) (world := quiet_world) giving_up_script
      (argv_for "start") (initial_state empty_config_files) = (Exit 1, st') /\
    stderr st' = [Printed "Error: no such service"].
Proof.
  destruct (X21_fail_with_error_in_a_handler (codec := PyJson.codec)
              (world := quiet_world) giving_up_script (argv_for "start")
              (initial_state empty_config_files) "{}" (Obj []) []
              "no such service")
    as (st' & Hrun & _ & _ & Herr & _).
  - cbn. lia.
  - reflexivity.
  - reflexivity.
  - reflexivity.
  - vm_compute. discriminate.
  - reflexivity.
  - reflexivity.
  - exists st'. split; assumption.
Defined.

Lemma X23_witness :
  execute (codec := PyJson.codec) (world := quiet_world) []
    (argv_for "INSTALL") (initial_state packages_config_files) =
  (Ok tt,
   add_events
     [EvEnvEnter work_dir; EvCall "install" work_dir;
      EvInstallRepos (config_with_packages foo_bar_text);
      EvPackage (Str "foo"); EvPackage (Str "bar");
      EvRemoveRepos (config_with_packages foo_bar_text);
      EvEnvExit work_dir]
     (loaded_state out_path (config_with_packages foo_bar_text)
        (initial_state packages_config_files))).
Proof.
  apply (X23_install_command_succeeds (codec := PyJson.codec)
           (world := quiet_world) [] (argv_for "INSTALL")
           (initial_state packages_config_files)
           (PyJson.dumps (Obj (config_with_packages foo_bar_text)))
           (Obj (config_with_packages foo_bar_text))
           (config_with_packages foo_bar_text) foo_bar_text
           [Obj [("name", Str "foo")]; Obj [("name", Str "bar")]]
           [Str "foo"; Str "bar"]).
  - cbn. lia.
  - reflexivity.
  - reflexivity.
  - reflexivity.
  - reflexivity.
  - reflexivity.
  - vm_compute. reflexivity.
  - reflexivity.
  - reflexivity.
  - vm_compute. discriminate.
  - vm_compute. reflexivity.
  - repeat constructor.
  - reflexivity.
  - reflexivity.
  - reflexivity.
Defined.

Lemma X24_witness :
  exists st',
    execute (codec := PyJson.codec) (world := quiet_world) status_script
      (argv_for "status") (initial_state empty_config_files) = (Ok tt, st') /\
    structuredOut st' = [("state", Str "up")].
Proof.
  destruct (X24_report_lands_at_fourth_argument (codec := PyJson.codec)
              (world := quiet_world) status_script (argv_for "status")
              (initial_state empty_config_files) "{}" (Obj []) []
              [("state", Str "up")])
    as (st' & Hrun & Hacc & _).
  - cbn. lia.
  - reflexivity.
  - reflexivity.
  - reflexivity.
  - vm_compute. discriminate.
  - reflexivity.
  - reflexivity.
  - reflexivity.
  - exists st'. split; [exact Hrun|]. rewrite Hacc. reflexivity.
Defined.
